(** * RequirementsBot: the [/api/generate] edge handler

    A shallow embedding of the three iterations of the handler kept in the
    repository ([api/generate.js] and two further copies of the same file).
    The three files share the text of [handler] line for line; they differ
    only in the object returned by [schema()].

    Layout:
    - JavaScript values as the handler sees them (parsed JSON), truthiness,
      string conversion, property access;
    - exceptions and a small monad of handler programs whose only effect
      is the outbound [fetch];
    - the three [schema()] objects and the handler itself;
    - the schema as documented, and the differences of a schema from it;
    - the properties of the handler. *)

From Stdlib Require Import String Ascii List Bool Lia.
Import ListNotations.
Local Open Scope list_scope.
Local Open Scope string_scope.

Set Implicit Arguments.
Set Warnings "-register-all".

(** ** Text helpers *)

(** A line feed, as it occurs inside the template literals. *)
Definition LF : string := String (ascii_of_nat 10) EmptyString.

(** A double quote character, as it occurs around TBD in the system prompt. *)
Definition DQ : string := String (ascii_of_nat 34) EmptyString.

(** The lines of a multi-line template literal, joined by line feeds. *)
Fixpoint lines (ls : list string) : string :=
  match ls with
  | [] => EmptyString
  | [l] => l
  | l :: rest => l ++ LF ++ lines rest
  end.

(** [Array.prototype.join] on already converted elements. *)
Fixpoint join (sep : string) (ls : list string) : string :=
  match ls with
  | [] => EmptyString
  | [l] => l
  | l :: rest => l ++ sep ++ join sep rest
  end.

(** ** Exceptions

    Every value thrown inside the handler is an [Error] object of the
    runtime: it has a [name] and a [message]. *)
Record Exception : Type := mkException {
  err_name : string;
  err_message : string
}.

(** The faults the engine itself raises while the handler runs; the wording
    of their messages belongs to the engine. *)
Inductive EngineFault : Type :=
| UnexpectedEndOfJSON   (* JSON text ends before a value: SyntaxError *)
| DestructureNull       (* const { ... } = null : TypeError *)
| ReadPropertyOfNull    (* null.choices : TypeError *)
| NoPrimitiveValue.     (* ToString of an object whose own toString is
                           not a function : TypeError *)

Definition fault_name (f : EngineFault) : string :=
  match f with
  | UnexpectedEndOfJSON => "SyntaxError"
  | DestructureNull => "TypeError"
  | ReadPropertyOfNull => "TypeError"
  | NoPrimitiveValue => "TypeError"
  end.

(** [Error.prototype.toString], which [String(err)] calls. *)
Definition error_to_string (e : Exception) : string :=
  if String.eqb (err_name e) "" then err_message e
  else if String.eqb (err_message e) "" then err_name e
  else err_name e ++ ": " ++ err_message e.

(** [err.message || String(err)] *)
Definition describe (e : Exception) : string :=
  if String.eqb (err_message e) "" then error_to_string e else err_message e.

(** The wording of V8 for the faults of the engine. *)
Definition v8_message (f : EngineFault) : string :=
  match f with
  | UnexpectedEndOfJSON => "Unexpected end of JSON input"
  | DestructureNull =>
      "Cannot destructure property 'figmaUrl' of '(intermediate value)' as it is null."
  | ReadPropertyOfNull => "Cannot read properties of null (reading 'choices')"
  | NoPrimitiveValue => "Cannot convert object to primitive value"
  end.

(** The values without numbers: with [no_number] for the type of numbers,
    the handler can be evaluated on bodies and answers built from null,
    booleans, strings, arrays and objects. *)
Definition no_number : Type := Empty_set.
Definition no_number_truthy (n : no_number) : bool := match n with end.
Definition no_number_to_string (n : no_number) : string := match n with end.

(** The outcome of an awaited promise, or of an expression that may throw. *)
Inductive JsResult (A : Type) : Type :=
| Ok (a : A)
| Thrown (e : Exception).
Arguments Ok {A} a.
Arguments Thrown {A} e.

(** Sequencing of expressions that may throw. *)
Definition and_then {A B : Type} (r : JsResult A) (f : A -> JsResult B)
  : JsResult B :=
  match r with
  | Ok a => f a
  | Thrown e => Thrown e
  end.

Section Runtime.

(** JSON numbers are IEEE doubles; the handler only tests them for
    truthiness and converts them to text, and both are left to the engine. *)
Variable number : Type.
Variable num_truthy : number -> bool.
Variable num_to_string : number -> string.

(** The message the engine attaches to each of its own faults. *)
Variable engine_message : EngineFault -> string.

Definition engine_error (f : EngineFault) : Exception :=
  mkException (fault_name f) (engine_message f).

(** ** Values

    The values the handler handles are the results of [JSON.parse] and
    object literals built from them. An object is the list of its own
    properties in insertion order, the order [JSON.stringify] writes them
    in; [undefined] is the absence of a value ([None]). *)
Inductive JSON : Type :=
| JNull
| JBool (b : bool)
| JNum (n : number)
| JStr (s : string)
| JArr (items : list JSON)
| JObj (props : list (string * JSON)).

(** Lookup of an own property in a property list. *)
Fixpoint assoc (k : string) (ps : list (string * JSON)) : option JSON :=
  match ps with
  | [] => None
  | (k', v) :: rest => if String.eqb k k' then Some v else assoc k rest
  end.

(** Removal of a property. *)
Fixpoint remove_key (k : string) (ps : list (string * JSON))
  : list (string * JSON) :=
  match ps with
  | [] => []
  | (k', v) :: rest =>
      if String.eqb k k' then remove_key k rest else (k', v) :: remove_key k rest
  end.

(** JavaScript truthiness of a defined value. *)
Definition truthy (v : JSON) : bool :=
  match v with
  | JNull => false
  | JBool b => b
  | JNum n => num_truthy n
  | JStr s => negb (String.eqb s "")
  | JArr _ => true
  | JObj _ => true
  end.

(** [ToString]: what a template literal or the [Response] constructor makes
    of a value. An object prints through [Object.prototype.toString] unless
    it has an own [toString] property: a parsed value is never a function,
    so the conversion then finds no primitive value and throws. An array
    prints its elements joined by commas, [null] as the empty string, and
    throws when an element does. *)
Fixpoint to_string (v : JSON) : JsResult string :=
  match v with
  | JNull => Ok "null"
  | JBool true => Ok "true"
  | JBool false => Ok "false"
  | JNum n => Ok (num_to_string n)
  | JStr s => Ok s
  | JArr items =>
      and_then
        ((fix elems (l : list JSON) : JsResult (list string) :=
            match l with
            | [] => Ok []
            | JNull :: r => and_then (elems r) (fun ss => Ok ("" :: ss))
            | x :: r =>
                and_then (to_string x) (fun s =>
                and_then (elems r) (fun ss => Ok (s :: ss)))
            end) items)
        (fun ss => Ok (join "," ss))
  | JObj ps =>
      match assoc "toString" ps with
      | Some _ => Thrown (engine_error NoPrimitiveValue)
      | None => Ok "[object Object]"
      end
  end.

(** [v || d] on a possibly undefined [v], with the default already a value. *)
Definition or_else (v : option JSON) (d : JSON) : JSON :=
  match v with
  | Some x => if truthy x then x else d
  | None => d
  end.

(** [${v || d}] inside a template literal. *)
Definition interp (v : option JSON) (d : string) : JsResult string :=
  to_string (or_else v (JStr d)).

(** [v.k] on a defined, non-null value: own properties of objects; the
    other kinds of value carry none of the names the handler reads. *)
Definition prop (k : string) (v : JSON) : option JSON :=
  match v with
  | JObj ps => assoc k ps
  | _ => None
  end.

(** [v?.k] and [v?.[i]]: [undefined] when [v] is [undefined] or [null]. *)
Definition opt_prop (k : string) (v : option JSON) : option JSON :=
  match v with
  | None | Some JNull => None
  | Some x => prop k x
  end.

(** ** The three [schema()] objects

    Object literals are written with their properties in source order. *)

Definition strs (l : list string) : JSON := JArr (map JStr l).
Definition typed (t : string) : JSON := JObj [("type", JStr t)].
Definition array_of (items : JSON) : JSON :=
  JObj [("type", JStr "array"); ("items", items)].

(** [schema()] of [api/generate.js]: nested objects left free-form. *)
Definition schema_api_generate : JSON :=
  JObj [
    ("name", JStr "RequirementsBundle");
    ("strict", JBool true);
    ("schema", JObj [
      ("type", JStr "object");
      ("additionalProperties", JBool false);
      ("properties", JObj [
        ("userStories", array_of (JObj [
          ("type", JStr "object");
          ("required", strs ["id"; "as_a"; "i_want"; "so_that"; "acceptance_criteria"]);
          ("additionalProperties", JBool true);
          ("properties", JObj [
            ("id", typed "string");
            ("as_a", typed "string");
            ("i_want", typed "string");
            ("so_that", typed "string");
            ("acceptance_criteria", array_of (typed "string"));
            ("trace", typed "object")
          ])
        ]));
        ("declarativeStories", array_of (JObj [
          ("type", JStr "object");
          ("required", strs ["title"; "scenarios"]);
          ("properties", JObj [
            ("title", typed "string");
            ("scenarios", array_of (JObj [
              ("type", JStr "object");
              ("required", strs ["given"; "when"; "then"]);
              ("properties", JObj [
                ("given", typed "string");
                ("when", typed "string");
                ("then", typed "string");
                ("examples", array_of (typed "object"))
              ])
            ]))
          ])
        ]));
        ("imperativeTests", array_of (JObj [
          ("type", JStr "object");
          ("required", strs ["name"; "gherkin"; "tags"]);
          ("properties", JObj [
            ("name", typed "string");
            ("tags", array_of (typed "string"));
            ("gherkin", typed "string");
            ("selectors", typed "object")
          ])
        ]));
        ("uiDataModel", JObj [
          ("type", JStr "object");
          ("properties", JObj [
            ("entities", array_of (JObj [
              ("type", JStr "object");
              ("required", strs ["name"; "fields"]);
              ("properties", JObj [
                ("name", typed "string");
                ("fields", array_of (JObj [
                  ("type", JStr "object");
                  ("required", strs ["name"; "type"]);
                  ("properties", JObj [
                    ("name", typed "string");
                    ("type", typed "string");
                    ("required", typed "boolean");
                    ("constraints", typed "object");
                    ("enum", array_of (typed "string"))
                  ])
                ]));
                ("relations", array_of (typed "object"))
              ])
            ]));
            ("jsonSchemas", typed "object");
            ("sqlDDL", typed "string")
          ])
        ]);
        ("validationReport", JObj [
          ("type", JStr "object");
          ("properties", JObj [
            ("coverage", typed "object");
            ("conflicts", array_of (typed "string"));
            ("ambiguities", array_of (typed "string"));
            ("missing", array_of (typed "string"));
            ("notes", array_of (typed "string"))
          ])
        ])
      ]);
      ("required", strs ["userStories"; "declarativeStories"; "imperativeTests";
                         "uiDataModel"; "validationReport"])
    ])
  ].

(** [schema()] of the first unnamed copy: closed objects, the free-form
    fields postponed (see its comments: add ... later). *)
Definition schema_part_000 : JSON :=
  JObj [
    ("name", JStr "RequirementsBundle");
    ("strict", JBool true);
    ("schema", JObj [
      ("type", JStr "object");
      ("additionalProperties", JBool false);
      ("required", strs ["userStories"; "declarativeStories"; "imperativeTests";
                         "uiDataModel"; "validationReport"]);
      ("properties", JObj [
        ("userStories", array_of (JObj [
          ("type", JStr "object");
          ("additionalProperties", JBool false);
          ("required", strs ["id"; "as_a"; "i_want"; "so_that"; "acceptance_criteria"]);
          ("properties", JObj [
            ("id", typed "string");
            ("as_a", typed "string");
            ("i_want", typed "string");
            ("so_that", typed "string");
            ("acceptance_criteria", array_of (typed "string"))
          ])
        ]));
        ("declarativeStories", array_of (JObj [
          ("type", JStr "object");
          ("additionalProperties", JBool false);
          ("required", strs ["title"; "scenarios"]);
          ("properties", JObj [
            ("title", typed "string");
            ("scenarios", array_of (JObj [
              ("type", JStr "object");
              ("additionalProperties", JBool false);
              ("required", strs ["given"; "when"; "then"]);
              ("properties", JObj [
                ("given", typed "string");
                ("when", typed "string");
                ("then", typed "string")
              ])
            ]))
          ])
        ]));
        ("imperativeTests", array_of (JObj [
          ("type", JStr "object");
          ("additionalProperties", JBool false);
          ("required", strs ["name"; "gherkin"; "tags"]);
          ("properties", JObj [
            ("name", typed "string");
            ("gherkin", typed "string");
            ("tags", array_of (typed "string"))
          ])
        ]));
        ("uiDataModel", JObj [
          ("type", JStr "object");
          ("additionalProperties", JBool false);
          ("required", strs ["entities"]);
          ("properties", JObj [
            ("entities", array_of (JObj [
              ("type", JStr "object");
              ("additionalProperties", JBool false);
              ("required", strs ["name"; "fields"]);
              ("properties", JObj [
                ("name", typed "string");
                ("fields", array_of (JObj [
                  ("type", JStr "object");
                  ("additionalProperties", JBool false);
                  ("required", strs ["name"; "type"]);
                  ("properties", JObj [
                    ("name", typed "string");
                    ("type", typed "string");
                    ("required", typed "boolean")
                  ])
                ]))
              ])
            ]))
          ])
        ]);
        ("validationReport", JObj [
          ("type", JStr "object");
          ("additionalProperties", JBool false);
          ("properties", JObj [
            ("coverage", JObj [
              ("type", JStr "object");
              ("additionalProperties", JBool false);
              ("properties", JObj [
                ("uiComponentsCoveredPct", typed "number");
                ("fieldsWithTestsPct", typed "number")
              ])
            ]);
            ("conflicts", array_of (typed "string"));
            ("ambiguities", array_of (typed "string"));
            ("missing", array_of (typed "string"));
            ("notes", array_of (typed "string"))
          ])
        ])
      ])
    ])
  ].

(** A closed object with the given properties and no [required] list. *)
Definition closed_object (ps : list (string * JSON)) : JSON :=
  JObj [("type", JStr "object");
        ("additionalProperties", JBool false);
        ("properties", JObj ps)].

(** [schema()] of the second unnamed copy: every object closed and
    populated. *)
Definition schema_part_001 : JSON :=
  JObj [
    ("name", JStr "RequirementsBundle");
    ("strict", JBool true);
    ("schema", JObj [
      ("type", JStr "object");
      ("additionalProperties", JBool false);
      ("properties", JObj [
        ("userStories", array_of (JObj [
          ("type", JStr "object");
          ("additionalProperties", JBool false);
          ("required", strs ["id"; "as_a"; "i_want"; "so_that"; "acceptance_criteria"]);
          ("properties", JObj [
            ("id", typed "string");
            ("as_a", typed "string");
            ("i_want", typed "string");
            ("so_that", typed "string");
            ("acceptance_criteria", array_of (typed "string"));
            ("trace", closed_object [
              ("ui_nodes", array_of (typed "string"));
              ("entities", array_of (typed "string"))
            ])
          ])
        ]));
        ("declarativeStories", array_of (JObj [
          ("type", JStr "object");
          ("additionalProperties", JBool false);
          ("required", strs ["title"; "scenarios"]);
          ("properties", JObj [
            ("title", typed "string");
            ("scenarios", array_of (JObj [
              ("type", JStr "object");
              ("additionalProperties", JBool false);
              ("required", strs ["given"; "when"; "then"]);
              ("properties", JObj [
                ("given", typed "string");
                ("when", typed "string");
                ("then", typed "string");
                ("examples", array_of (closed_object []))
              ])
            ]))
          ])
        ]));
        ("imperativeTests", array_of (JObj [
          ("type", JStr "object");
          ("additionalProperties", JBool false);
          ("required", strs ["name"; "gherkin"; "tags"]);
          ("properties", JObj [
            ("name", typed "string");
            ("tags", array_of (typed "string"));
            ("gherkin", typed "string");
            ("selectors", closed_object [])
          ])
        ]));
        ("uiDataModel", closed_object [
          ("entities", array_of (JObj [
            ("type", JStr "object");
            ("additionalProperties", JBool false);
            ("required", strs ["name"; "fields"]);
            ("properties", JObj [
              ("name", typed "string");
              ("fields", array_of (JObj [
                ("type", JStr "object");
                ("additionalProperties", JBool false);
                ("required", strs ["name"; "type"]);
                ("properties", JObj [
                  ("name", typed "string");
                  ("type", typed "string");
                  ("required", typed "boolean");
                  ("constraints", closed_object [
                    ("minLength", typed "number");
                    ("maxLength", typed "number");
                    ("pattern", typed "string");
                    ("minimum", typed "number");
                    ("maximum", typed "number")
                  ]);
                  ("enum", array_of (typed "string"))
                ])
              ]));
              ("relations", array_of (closed_object [
                ("type", typed "string");
                ("target", typed "string");
                ("on", typed "string")
              ]))
            ])
          ]));
          ("jsonSchemas", closed_object []);
          ("sqlDDL", typed "string")
        ]);
        ("validationReport", closed_object [
          ("coverage", closed_object [
            ("uiComponentsCoveredPct", typed "number");
            ("fieldsWithTestsPct", typed "number")
          ]);
          ("conflicts", array_of (typed "string"));
          ("ambiguities", array_of (typed "string"));
          ("missing", array_of (typed "string"));
          ("notes", array_of (typed "string"))
        ])
      ]);
      ("required", strs ["userStories"; "declarativeStories"; "imperativeTests";
                         "uiDataModel"; "validationReport"])
    ])
  ].

(** The three files of the repository. *)
Inductive Variant : Type :=
| ApiGenerate   (* api/generate.js *)
| Part000       (* first unnamed copy *)
| Part001.      (* second unnamed copy *)

(** [schema()] as defined in each file. *)
Definition schema (v : Variant) : JSON :=
  match v with
  | ApiGenerate => schema_api_generate
  | Part000 => schema_part_000
  | Part001 => schema_part_001
  end.

(** ** Requests, responses and the outbound call *)

(** The body of the inbound request, by what [req.json()] makes of it. *)
Inductive Body : Type :=
| BodyEmpty                      (* no bytes at all *)
| BodyUnreadable (e : Exception) (* any other body on which req.json()
                                    rejects, with the error it rejects with *)
| BodyJson (j : JSON).           (* text that parses to the value j *)

Record Request : Type := mkRequest {
  req_method : string;
  req_body : Body
}.

(** [req.json()] *)
Definition req_json (r : Request) : JsResult JSON :=
  match req_body r with
  | BodyEmpty => Thrown (engine_error UnexpectedEndOfJSON)
  | BodyUnreadable e => Thrown e
  | BodyJson j => Ok j
  end.

(** [new Response(body, { status, headers })]; [resp_headers] are the
    headers given in the init object. *)
Record Response : Type := mkResponse {
  resp_body : string;
  resp_status : nat;
  resp_headers : list (string * string)
}.

(** The arguments of [fetch(url, init)]. [call_body] is the object handed to
    [JSON.stringify]. *)
Record FetchCall : Type := mkFetchCall {
  call_url : string;
  call_method : string;
  call_headers : list (string * string);
  call_body : JSON
}.

(** What [fetch] resolves to: the [ok] flag, and what [text()] and [json()]
    resolve to if called. *)
Record Upstream : Type := mkUpstream {
  up_ok : bool;
  up_text : JsResult string;
  up_json : JsResult JSON
}.

(** [process.env] *)
Record Env : Type := mkEnv {
  OPENAI_API_KEY : option string
}.

(** [${v}] on a possibly undefined string of the environment. *)
Definition env_to_string (v : option string) : string :=
  match v with
  | Some s => s
  | None => "undefined"
  end.

(** ** Handler programs

    A program returns, throws, or performs one outbound [fetch] and goes on
    with whatever the network answers. *)
Inductive Prog (A : Type) : Type :=
| Ret (a : A)
| Throw (e : Exception)
| Fetch (c : FetchCall) (k : JsResult Upstream -> Prog A).
Arguments Ret {A} a.
Arguments Throw {A} e.
Arguments Fetch {A} c k.

Fixpoint bind {A B : Type} (p : Prog A) (f : A -> Prog B) : Prog B :=
  match p with
  | Ret a => f a
  | Throw e => Throw e
  | Fetch c k => Fetch c (fun r => bind (k r) f)
  end.

Notation "x <- p ;; q" := (bind p (fun x => q))
  (at level 61, p at next level, right associativity).

(** [await] of a settled promise: its value, or its rejection thrown. *)
Definition await {A : Type} (r : JsResult A) : Prog A :=
  match r with
  | Ok a => Ret a
  | Thrown e => Throw e
  end.

(** [await fetch(url, init)] *)
Definition fetch (c : FetchCall) : Prog Upstream := Fetch c await.

(** [try { p } catch (err) { h err }] *)
Fixpoint try_catch {A : Type} (p : Prog A) (h : Exception -> Prog A) : Prog A :=
  match p with
  | Ret a => Ret a
  | Throw e => h e
  | Fetch c k => Fetch c (fun r => try_catch (k r) h)
  end.

(** Running a program against a network: the outcome, and the outbound
    calls performed, in order. *)
Fixpoint run {A : Type} (net : FetchCall -> JsResult Upstream) (p : Prog A)
  : JsResult A * list FetchCall :=
  match p with
  | Ret a => (Ok a, [])
  | Throw e => (Thrown e, [])
  | Fetch c k => let (r, calls) := run net (k (net c)) in (r, c :: calls)
  end.

(** The most outbound calls a program can make, whatever the network
    answers. *)
Fixpoint fetch_bound {A : Type} (n : nat) (p : Prog A) {struct p} : Prop :=
  match p with
  | Ret _ => True
  | Throw _ => True
  | Fetch _ k =>
      match n with
      | O => False
      | S n' => forall r, fetch_bound n' (k r)
      end
  end.

(** ** The handler *)

(** The result of
    [const { figmaUrl, brief, rules, model, detail, imageDataUrl } = ...]. *)
Record Fields : Type := mkFields {
  figmaUrl : option JSON;
  brief : option JSON;
  rules : option JSON;
  model : option JSON;
  detail : option JSON;
  imageDataUrl : option JSON
}.

(** The property reads of the destructuring pattern. *)
Definition fields_of (v : JSON) : Fields :=
  mkFields (prop "figmaUrl" v) (prop "brief" v) (prop "rules" v)
           (prop "model" v) (prop "detail" v) (prop "imageDataUrl" v).

(** Object destructuring: a [TypeError] on [null], property reads
    otherwise. *)
Definition destructure (v : JSON) : Prog Fields :=
  match v with
  | JNull => Throw (engine_error DestructureNull)
  | _ => Ret (fields_of v)
  end.

(** The content of the system message. *)
Definition system_content : string :=
  lines [
    "You are a Product Requirements generator.";
    "Return STRICT JSON ONLY (no prose) that conforms to the provided JSON Schema.";
    "Inputs you may use: Figma URL, uploaded image, product brief, and validation rules.";
    "Goals:";
    "1) User Stories with SMART acceptance criteria (success, error, empty, permission).";
    "2) Declarative stories (rule-focused Gherkin; scenario outlines with examples where useful).";
    "3) Imperative test cases (Given/When/Then; selectors/testIds where possible).";
    "4) UI Data Model (entities, fields, constraints, relations, JSON Schemas, optional SQL DDL).";
    "5) Validation Report (coverage, conflicts, ambiguities, missing).";
    "Honor the rules strictly. If a detail is genuinely unknown, use " ++ DQ ++ "TBD"
      ++ DQ ++ " and flag it in validationReport."
  ].

(** The template literal of the user text: the four substitutions are
    converted in order, and the first conversion that throws ends it. *)
Definition user_text (f : Fields) : JsResult string :=
  and_then (interp (figmaUrl f) "N/A") (fun figma =>
  and_then (interp (brief f) "N/A") (fun brief_text =>
  and_then (interp (detail f) "standard") (fun detail_text =>
  and_then (interp (rules f) "") (fun rules_text =>
  Ok (lines [
    "FIGMA: " ++ figma;
    "BRIEF: " ++ brief_text;
    "DETAIL: " ++ detail_text;
    "RULES (YAML or text):";
    rules_text;
    "";
    "Please infer intents from UI labels and flows if present. Produce comprehensive but concise artifacts.";
    "Link stories/tests/model via trace where obvious."
  ]))))).

Definition text_part (text : string) : JSON :=
  JObj [("type", JStr "text"); ("text", JStr text)].

Definition image_part (url : JSON) : JSON :=
  JObj [("type", JStr "image_url"); ("image_url", JObj [("url", url)])].

(** The content of the user message once
    [if (imageDataUrl) messages[1].content.push(...)] has run; [text] is
    the user text. *)
Definition user_content (text : string) (f : Fields) : list JSON :=
  text_part text ::
  match imageDataUrl f with
  | Some u => if truthy u then [image_part u] else []
  | None => []
  end.

Definition system_message : JSON :=
  JObj [("role", JStr "system"); ("content", JStr system_content)].

Definition user_message (text : string) (f : Fields) : JSON :=
  JObj [("role", JStr "user"); ("content", JArr (user_content text f))].

Definition messages (text : string) (f : Fields) : list JSON :=
  [system_message; user_message text f].

(** The object [body] of the handler. *)
Definition request_body (v : Variant) (text : string) (f : Fields) : JSON :=
  JObj [
    ("model", or_else (model f) (JStr "gpt-5"));
    ("messages", JArr (messages text f));
    ("response_format",
       JObj [("type", JStr "json_schema"); ("json_schema", schema v)])
  ].

Definition completions_url : string :=
  "https://api.openai.com/v1/chat/completions".

(** The arguments of the one [fetch]. [call_body] is the object [body]
    as handed to [JSON.stringify], not the text written on the wire. *)
Definition outbound_call (v : Variant) (env : Env) (text : string) (f : Fields)
  : FetchCall :=
  mkFetchCall completions_url "POST"
    [("Authorization", "Bearer " ++ env_to_string (OPENAI_API_KEY env));
     ("Content-Type", "application/json")]
    (request_body v text f).

(** [v?.[0]] *)
Definition opt_index0 (v : option JSON) : option JSON :=
  match v with
  | None | Some JNull => None
  | Some (JArr items) => nth_error items 0
  | Some (JStr (String c _)) => Some (JStr (String c EmptyString))
  | Some (JObj ps) => assoc "0" ps
  | Some _ => None
  end.

(** [data.choices?.[0]?.message?.content] on a non-null [data]. *)
Definition choice_content (data : JSON) : option JSON :=
  opt_prop "content" (opt_prop "message" (opt_index0 (prop "choices" data))).

(** [data.choices?.[0]?.message?.content || "{}"]: reading [choices] from
    [null] throws. *)
Definition first_content (data : JSON) : Prog JSON :=
  match data with
  | JNull => Throw (engine_error ReadPropertyOfNull)
  | _ => Ret (or_else (choice_content data) (JStr "{}"))
  end.

(** The part of the [try] block that follows the outbound call: the
    upstream error relayed, or the first choice's content. The [Response]
    constructor converts a body that is not a string with [ToString]. *)
Definition relay (resp : Upstream) : Prog Response :=
  if negb (up_ok resp) then
    text <- await (up_text resp) ;;
    Ret (mkResponse ("OpenAI error: " ++ text) 500 [])
  else
    data <- await (up_json resp) ;;
    content <- first_content data ;;
    body <- await (to_string content) ;;
    Ret (mkResponse body 200 [("Content-Type", "application/json")]).

(** The body of the [try] block. *)
Definition handler_try (v : Variant) (env : Env) (req : Request)
  : Prog Response :=
  if negb (String.eqb (req_method req) "POST") then
    Ret (mkResponse "Method Not Allowed" 405 [])
  else
    parsed <- await (req_json req) ;;
    f <- destructure parsed ;;
    text <- await (user_text f) ;;
    resp <- fetch (outbound_call v env text f) ;;
    relay resp.

(** The [catch] block. *)
Definition handler_catch (err : Exception) : Prog Response :=
  Ret (mkResponse ("Server error: " ++ describe err) 500 []).

(** What follows the outbound call, inside the [try] and its [catch]. *)
Definition settle (r : JsResult Upstream) : Prog Response :=
  try_catch (bind (await r) relay) handler_catch.

(** [export default async function handler(req)] *)
Definition handler (v : Variant) (env : Env) (req : Request) : Prog Response :=
  try_catch (handler_try v env req) handler_catch.

(** Lookup along a path of property names. *)
Fixpoint at_path (path : list string) (j : JSON) : option JSON :=
  match path with
  | [] => Some j
  | k :: rest =>
      match prop k j with
      | Some sub => at_path rest sub
      | None => None
      end
  end.

(** ** The schema as documented

    The data model is documented as a tree of named fields: a field is
    optional when marked with a question mark, and its shape is a nested
    object, a sequence, a string, or left open. *)
Inductive Doc : Type :=
| DAny                                        (* documented by name only *)
| DString                                     (* string *)
| DSeq (elem : Doc)                           (* sequence of ... *)
| DObj (fields : list (string * bool * Doc)). (* name, optional?, shape *)

Definition req (name : string) (d : Doc) : string * bool * Doc :=
  (name, false, d).
Definition opt (name : string) (d : Doc) : string * bool * Doc :=
  (name, true, d).

(** The five top-level fields of the documented output envelope. *)
Definition documented : Doc :=
  DObj [
    req "userStories" (DSeq (DObj [
      req "id" DAny; req "as_a" DAny; req "i_want" DAny; req "so_that" DAny;
      req "acceptance_criteria" (DSeq DString);
      opt "trace" (DObj [req "ui_nodes" DAny; req "entities" DAny])
    ]));
    req "declarativeStories" (DSeq (DObj [
      req "title" DAny;
      req "scenarios" (DSeq (DObj [
        req "given" DAny; req "when" DAny; req "then" DAny;
        opt "examples" DAny
      ]))
    ]));
    req "imperativeTests" (DSeq (DObj [
      req "name" DAny; req "gherkin" DAny; req "tags" (DSeq DString);
      opt "selectors" DAny
    ]));
    req "uiDataModel" (DObj [
      req "entities" (DSeq (DObj [
        req "name" DAny;
        req "fields" (DSeq (DObj [
          req "name" DAny; req "type" DAny;
          opt "required" DAny; opt "constraints" DAny; opt "enum" DAny
        ]));
        opt "relations" DAny
      ]));
      opt "jsonSchemas" DAny;
      opt "sqlDDL" DAny
    ]);
    req "validationReport" (DObj [
      opt "coverage" (DObj [
        req "uiComponentsCoveredPct" DAny; req "fieldsWithTestsPct" DAny
      ]);
      opt "conflicts" DAny; opt "ambiguities" DAny; opt "missing" DAny;
      opt "notes" (DSeq DString)
    ])
  ].

(** The names of the five top-level fields. *)
Definition top_level_names : list string :=
  ["userStories"; "declarativeStories"; "imperativeTests"; "uiDataModel";
   "validationReport"].

(** Where the json_schema constraint sits in the request body, and where the
    nested fields of trace and coverage would sit in the constraint. *)
Definition json_schema_path : list string :=
  ["response_format"; "json_schema"].
Definition trace_path : list string :=
  ["schema"; "properties"; "userStories"; "items"; "properties"; "trace"].
Definition coverage_path : list string :=
  ["schema"; "properties"; "validationReport"; "properties"; "coverage"].

Definition mem (x : string) (l : list string) : bool :=
  existsb (String.eqb x) l.
Definition subset (l1 l2 : list string) : bool :=
  forallb (fun x => mem x l2) l1.

(** The [type] keyword of a schema. *)
Definition has_type (t : string) (j : JSON) : bool :=
  match prop "type" j with
  | Some (JStr s) => String.eqb s t
  | _ => false
  end.

(** The [properties] of a schema ([[]] when it has none). *)
Definition properties_of (j : JSON) : list (string * JSON) :=
  match prop "properties" j with
  | Some (JObj ps) => ps
  | _ => []
  end.

(** The [required] list of a schema ([[]] when it has none). *)
Definition required_of (j : JSON) : list string :=
  match prop "required" j with
  | Some (JArr l) =>
      flat_map (fun x => match x with JStr s => [s] | _ => [] end) l
  | _ => []
  end.

Definition field_names (fs : list (string * bool * Doc)) : list string :=
  map (fun f => fst (fst f)) fs.
Definition mandatory_names (fs : list (string * bool * Doc)) : list string :=
  field_names (filter (fun f => negb (snd (fst f))) fs).

(** ** Differences between a schema and the documentation

    Places are written as paths: [a.b] is the property [b] of [a], and
    [a[]] the items of the sequence [a]. *)

Definition dot (path name : string) : string :=
  if String.eqb path "" then name else path ++ "." ++ name.
Definition items_of (path : string) : string := path ++ "[]".

(** Every property a schema declares, at any depth, through [properties]
    and [items]. *)
Fixpoint declared_below (path : string) (j : JSON) : list string :=
  match j with
  | JObj ps =>
      (fix keys (l : list (string * JSON)) : list string :=
         match l with
         | [] => []
         | (k, v) :: rest =>
             ((if String.eqb k "properties" then
                 match v with
                 | JObj qs =>
                     (fix each (q : list (string * JSON)) : list string :=
                        match q with
                        | [] => []
                        | (name, sub) :: q' =>
                            (dot path name ::
                             declared_below (dot path name) sub ++ each q')%list
                        end) qs
                 | _ => []
                 end
               else if String.eqb k "items" then
                 declared_below (items_of path) v
               else []) ++ keys rest)%list
         end) ps
  | _ => []
  end.

(** Every entry of a [required] list of a schema, at any depth. *)
Fixpoint required_below (path : string) (j : JSON) : list string :=
  match j with
  | JObj ps =>
      (map (dot path) (required_of j) ++
       (fix keys (l : list (string * JSON)) : list string :=
          match l with
          | [] => []
          | (k, v) :: rest =>
              ((if String.eqb k "properties" then
                  match v with
                  | JObj qs =>
                      (fix each (q : list (string * JSON)) : list string :=
                         match q with
                         | [] => []
                         | (name, sub) :: q' =>
                             (required_below (dot path name) sub ++ each q')%list
                         end) qs
                  | _ => []
                  end
                else if String.eqb k "items" then
                  required_below (items_of path) v
                else []) ++ keys rest)%list
          end) ps)%list
  | _ => []
  end.

(** The properties a schema declares that the documentation does not name.
    Below a field documented by name only, or as a string, the
    documentation names nothing, so every property declared there
    counts. *)
Fixpoint undocumented (d : Doc) (path : string) (j : JSON) : list string :=
  match d with
  | DAny => declared_below path j
  | DString => declared_below path j
  | DSeq elem =>
      (flat_map (fun kv => dot path (fst kv) ::
                           declared_below (dot path (fst kv)) (snd kv))
         (properties_of j) ++
       match prop "items" j with
       | Some items => undocumented elem (items_of path) items
       | None => []
       end)%list
  | DObj fs =>
      ((fix each (l : list (string * bool * Doc)) : list string :=
          match l with
          | [] => []
          | (name, _, shape) :: rest =>
              (match assoc name (properties_of j) with
               | Some sub => undocumented shape (dot path name) sub
               | None => []
               end ++ each rest)%list
          end) fs ++
       flat_map (fun kv =>
                   if mem (fst kv) (field_names fs) then []
                   else dot path (fst kv) ::
                        declared_below (dot path (fst kv)) (snd kv))
         (properties_of j) ++
       match prop "items" j with
       | Some items => declared_below (items_of path) items
       | None => []
       end)%list
  end.

(** The documented fields a schema leaves out. A field below a missing one
    is not listed again. *)
Fixpoint missing (d : Doc) (path : string) (j : JSON) : list string :=
  match d with
  | DAny => []
  | DString => []
  | DSeq elem =>
      match prop "items" j with
      | Some items => missing elem (items_of path) items
      | None => [items_of path]
      end
  | DObj fs =>
      (fix each (l : list (string * bool * Doc)) : list string :=
         match l with
         | [] => []
         | (name, _, shape) :: rest =>
             (match assoc name (properties_of j) with
              | Some sub => missing shape (dot path name) sub
              | None => [dot path name]
              end ++ each rest)%list
         end) fs
  end.

(** The places whose [type] is not the documented kind (object, array or
    string). *)
Fixpoint mistyped (d : Doc) (path : string) (j : JSON) : list string :=
  match d with
  | DAny => []
  | DString => if has_type "string" j then [] else [path]
  | DSeq elem =>
      ((if has_type "array" j then [] else [path]) ++
       match prop "items" j with
       | Some items => mistyped elem (items_of path) items
       | None => []
       end)%list
  | DObj fs =>
      ((if has_type "object" j then [] else [path]) ++
       (fix each (l : list (string * bool * Doc)) : list string :=
          match l with
          | [] => []
          | (name, _, shape) :: rest =>
              (match assoc name (properties_of j) with
               | Some sub => mistyped shape (dot path name) sub
               | None => []
               end ++ each rest)%list
          end) fs)%list
  end.

(** The fields documented without a question mark that a schema declares
    but does not list as required. *)
Fixpoint not_required (d : Doc) (path : string) (j : JSON) : list string :=
  match d with
  | DAny => []
  | DString => []
  | DSeq elem =>
      match prop "items" j with
      | Some items => not_required elem (items_of path) items
      | None => []
      end
  | DObj fs =>
      (fix each (l : list (string * bool * Doc)) : list string :=
         match l with
         | [] => []
         | (name, optional, shape) :: rest =>
             (match assoc name (properties_of j) with
              | Some sub =>
                  (if optional || mem name (required_of j) then []
                   else [dot path name]) ++
                  not_required shape (dot path name) sub
              | None => []
              end ++ each rest)%list
         end) fs
  end.

(** The entries of [required] lists that are not fields documented
    without a question mark. *)
Fixpoint required_beyond (d : Doc) (path : string) (j : JSON) : list string :=
  match d with
  | DAny => required_below path j
  | DString => required_below path j
  | DSeq elem =>
      (map (dot path) (required_of j) ++
       match prop "items" j with
       | Some items => required_beyond elem (items_of path) items
       | None => []
       end)%list
  | DObj fs =>
      (map (dot path)
         (filter (fun name => negb (mem name (mandatory_names fs)))
            (required_of j)) ++
       (fix each (l : list (string * bool * Doc)) : list string :=
          match l with
          | [] => []
          | (name, _, shape) :: rest =>
              (match assoc name (properties_of j) with
               | Some sub => required_beyond shape (dot path name) sub
               | None => []
               end ++ each rest)%list
          end) fs)%list
  end.

(** The five lists of differences of a json_schema constraint, whose
    [schema] property holds the JSON Schema proper, from the documented
    envelope. *)
Record SchemaDiff : Type := mkSchemaDiff {
  diff_undocumented : list string;
  diff_missing : list string;
  diff_mistyped : list string;
  diff_not_required : list string;
  diff_required_beyond : list string
}.

Definition schema_diff (c : JSON) : option SchemaDiff :=
  match prop "schema" c with
  | Some j =>
      Some (mkSchemaDiff (undocumented documented "" j)
                         (missing documented "" j)
                         (mistyped documented "" j)
                         (not_required documented "" j)
                         (required_beyond documented "" j))
  | None => None
  end.

(** ** Reading the outbound call back *)

(** The content parts of the second (user) message of a request body. *)
Definition sent_user_content (c : FetchCall) : list JSON :=
  match prop "messages" (call_body c) with
  | Some (JArr [_; user]) =>
      match prop "content" user with
      | Some (JArr parts) => parts
      | _ => []
      end
  | _ => []
  end.

(** The text of the first content part of the user message. *)
Definition sent_user_text (c : FetchCall) : option JSON :=
  match sent_user_content c with
  | part :: _ => prop "text" part
  | [] => None
  end.

(** The content parts of type [image_url]. *)
Definition image_parts (parts : list JSON) : list JSON :=
  filter (has_type "image_url") parts.

(** The keys the handler reads from the request body. *)
Definition body_keys : list string :=
  ["figmaUrl"; "brief"; "rules"; "model"; "detail"; "imageDataUrl"].

(** The text of the user message when every input takes its default. *)
Definition default_user_text : string :=
  lines [
    "FIGMA: N/A";
    "BRIEF: N/A";
    "DETAIL: standard";
    "RULES (YAML or text):";
    "";
    "";
    "Please infer intents from UI labels and flows if present. Produce comprehensive but concise artifacts.";
    "Link stories/tests/model via trace where obvious."
  ].

(** ** Shape of a schema object

    Checks that walk a JSON Schema through its [properties] and [items]. *)

(** Whether a value is an object. *)
Definition is_object (j : JSON) : bool :=
  match j with
  | JObj _ => true
  | _ => false
  end.

(** What one schema node must satisfy on its own. *)
Definition NodeCheck : Type := list (string * JSON) -> bool.

(** Every name of the [required] list of a node is one of its
    [properties]. *)
Definition required_declared : NodeCheck :=
  fun ps => subset (required_of (JObj ps)) (map fst (properties_of (JObj ps))).

(** A node of type object says [additionalProperties: false]. *)
Definition closed_node : NodeCheck :=
  fun ps =>
    if has_type "object" (JObj ps) then
      match assoc "additionalProperties" ps with
      | Some (JBool false) => true
      | _ => false
      end
    else true.

(** A node check applied to a schema and to every schema below it. *)
Fixpoint every_node (ok : NodeCheck) (j : JSON) : bool :=
  match j with
  | JObj ps =>
      ok ps &&
      (fix keys (l : list (string * JSON)) : bool :=
         match l with
         | [] => true
         | (k, v) :: rest =>
             (if String.eqb k "properties" then
                match v with
                | JObj qs =>
                    (fix each (q : list (string * JSON)) : bool :=
                       match q with
                       | [] => true
                       | (_, sub) :: q' => every_node ok sub && each q'
                       end) qs
                | _ => true
                end
              else if String.eqb k "items" then every_node ok v
              else true) && keys rest
         end) ps
  | _ => true
  end.

(** The check applied to the JSON Schema inside a json_schema constraint. *)
Definition constraint_every_node (ok : NodeCheck) (c : JSON) : bool :=
  match prop "schema" c with
  | Some j => every_node ok j
  | None => false
  end.

(** ** Sample inputs *)

(** A POST whose body is the JSON text of the given value. *)
Definition post (j : JSON) : Request := mkRequest "POST" (BodyJson j).

(** A POST with no body at all. *)
Definition post_without_body : Request := mkRequest "POST" BodyEmpty.

(** A request with another method. *)
Definition get_request : Request := mkRequest "GET" BodyEmpty.

(** A network on which every call is answered by the same response. *)
Definition always (up : Upstream) : FetchCall -> JsResult Upstream :=
  fun _ => Ok up.

(** A successful upstream response carrying the given JSON value. *)
Definition upstream_ok (text : string) (data : JSON) : Upstream :=
  mkUpstream true (Ok text) (Ok data).

(** An unsuccessful upstream response with the given text, which is not
    JSON. *)
Definition upstream_failed (text : string) : Upstream :=
  mkUpstream false (Ok text)
    (Thrown (mkException "SyntaxError" "Unexpected token"))%string.

(** An unsuccessful upstream response whose body cannot be read: both
    [text()] and [json()] reject with the given error. *)
Definition upstream_unreadable (e : Exception) : Upstream :=
  mkUpstream false (Thrown e) (Thrown e).

(** A chat completion whose first choice carries the given content. *)
Definition completion (content : string) : JSON :=
  JObj [("choices", JArr [
    JObj [("message", JObj [("role", JStr "assistant");
                            ("content", JStr content)])]])].

Definition no_key : Env := mkEnv None.

(** * Properties *)

(** ** Programs *)

(** A [try] block that returns is not affected by its [catch]. *)
Lemma run_try_ok {A : Type} net (p : Prog A) h a :
  fst (run net p) = Ok a -> run net (try_catch p h) = run net p.
Proof.
  induction p as [x | e | c k IH]; simpl; intros H.
  - reflexivity.
  - discriminate.
  - specialize (IH (net c)).
    destruct (run net (k (net c))) as [r calls] eqn:E. simpl in *.
    rewrite (IH H). reflexivity.
Qed.

(** A [try] block that throws hands the exception to a returning [catch],
    with the calls made so far. *)
Lemma run_try_thrown {A : Type} net (p : Prog A) h e a :
  fst (run net p) = Thrown e -> h e = Ret a ->
  run net (try_catch p h) = (Ok a, snd (run net p)).
Proof.
  induction p as [x | e' | c k IH]; simpl; intros H Hh.
  - discriminate.
  - injection H as ->. rewrite Hh. reflexivity.
  - specialize (IH (net c)).
    destruct (run net (k (net c))) as [r calls] eqn:E. simpl in *.
    rewrite (IH H Hh). reflexivity.
Qed.

Lemma fetch_bound_run {A : Type} net (p : Prog A) :
  forall n, fetch_bound n p -> length (snd (run net p)) <= n.
Proof.
  induction p as [x | e | c k IH]; simpl; intros n H; try lia.
  destruct n as [| n']; [contradiction |].
  specialize (IH (net c) n' (H (net c))).
  destruct (run net (k (net c))) as [r calls]. simpl in *. lia.
Qed.

(** ** The shape of a handler run *)

Lemma destructure_value (j : JSON) :
  j <> JNull -> destructure j = Ret (fields_of j).
Proof. destruct j; intros H; try reflexivity. contradiction. Qed.

Lemma first_content_value (data : JSON) :
  data <> JNull ->
  first_content data = Ret (or_else (choice_content data) (JStr "{}")).
Proof. destruct data; intros H; try reflexivity. contradiction. Qed.

Lemma null_or_value (j : JSON) : j = JNull \/ j <> JNull.
Proof. destruct j; auto; right; discriminate. Qed.

Lemma settle_no_fetch (r : JsResult Upstream) : fetch_bound 0 (settle r).
Proof.
  unfold settle, relay.
  destruct r as [[ok text data] | e]; simpl; [| exact I].
  destruct ok; simpl.
  - destruct data as [d | e]; simpl; [| exact I].
    destruct (null_or_value d) as [-> | Hn]; [exact I |].
    rewrite (first_content_value Hn). simpl.
    destruct (to_string _); exact I.
  - destruct text; simpl; exact I.
Qed.

Lemma settle_calls net (r : JsResult Upstream) : snd (run net (settle r)) = [].
Proof.
  pose proof (fetch_bound_run net (settle r) _ (settle_no_fetch r)) as H.
  destruct (snd (run net (settle r))); [reflexivity | simpl in H; lia].
Qed.

Lemma handler_not_post v env req :
  req_method req <> "POST" ->
  handler v env req = Ret (mkResponse "Method Not Allowed" 405 []).
Proof.
  intros H. apply String.eqb_neq in H.
  unfold handler, handler_try. rewrite H. reflexivity.
Qed.

Lemma handler_body_rejected v env req e :
  req_method req = "POST" -> req_json req = Thrown e ->
  handler v env req = handler_catch e.
Proof.
  intros Hm Hj. apply String.eqb_eq in Hm.
  unfold handler, handler_try. rewrite Hm, Hj. reflexivity.
Qed.

Lemma handler_body_null v env req :
  req_method req = "POST" -> req_json req = Ok JNull ->
  handler v env req = handler_catch (engine_error DestructureNull).
Proof.
  intros Hm Hj. apply String.eqb_eq in Hm.
  unfold handler, handler_try. rewrite Hm, Hj. reflexivity.
Qed.

(** A body with an input that cannot be converted to text ends in the
    [catch] before any call. *)
Lemma handler_body_unconvertible v env req parsed e :
  req_method req = "POST" -> req_json req = Ok parsed -> parsed <> JNull ->
  user_text (fields_of parsed) = Thrown e ->
  handler v env req = handler_catch e.
Proof.
  intros Hm Hj Hn Ht. apply String.eqb_eq in Hm.
  unfold handler, handler_try. rewrite Hm, Hj. simpl.
  rewrite (destructure_value Hn). simpl. rewrite Ht. reflexivity.
Qed.

Lemma handler_body_value v env req parsed text :
  req_method req = "POST" -> req_json req = Ok parsed -> parsed <> JNull ->
  user_text (fields_of parsed) = Ok text ->
  handler v env req =
    Fetch (outbound_call v env text (fields_of parsed)) settle.
Proof.
  intros Hm Hj Hn Ht. apply String.eqb_eq in Hm.
  unfold handler, handler_try. rewrite Hm, Hj. simpl.
  rewrite (destructure_value Hn). simpl. rewrite Ht. reflexivity.
Qed.

Lemma run_handler_value v env req parsed text net :
  req_method req = "POST" -> req_json req = Ok parsed -> parsed <> JNull ->
  user_text (fields_of parsed) = Ok text ->
  run net (handler v env req) =
    (fst (run net (settle (net (outbound_call v env text (fields_of parsed))))),
     [outbound_call v env text (fields_of parsed)]).
Proof.
  intros Hm Hj Hn Ht. rewrite (handler_body_value v env req Hm Hj Hn Ht). simpl.
  pose proof (settle_calls net
                (net (outbound_call v env text (fields_of parsed)))) as H.
  destruct (run net (settle _)) as [r calls]. simpl in *. subst. reflexivity.
Qed.

(** The ways a handler run can go: method refused, body rejected, null or
    not convertible to text, or one outbound call followed by its
    settlement. *)
Lemma handler_cases v env req :
  handler v env req = Ret (mkResponse "Method Not Allowed" 405 []) \/
  (exists e, handler v env req = handler_catch e) \/
  (exists parsed text,
     req_method req = "POST" /\ req_json req = Ok parsed /\ parsed <> JNull /\
     user_text (fields_of parsed) = Ok text /\
     handler v env req =
       Fetch (outbound_call v env text (fields_of parsed)) settle).
Proof.
  destruct (String.eqb (req_method req) "POST") eqn:Hm.
  - apply String.eqb_eq in Hm. right.
    destruct (req_json req) as [parsed | e] eqn:Hj.
    + destruct (null_or_value parsed) as [-> | Hn].
      * left. eexists. apply (handler_body_null v env req Hm Hj).
      * destruct (user_text (fields_of parsed)) as [text | e] eqn:Ht.
        -- right. exists parsed, text. repeat split; auto.
           apply (handler_body_value v env req Hm Hj Hn Ht).
        -- left. exists e.
           apply (handler_body_unconvertible v env req Hm Hj Hn Ht).
    + left. exists e. apply (handler_body_rejected v env req Hm Hj).
  - apply String.eqb_neq in Hm. left. apply (handler_not_post v env req Hm).
Qed.

(** Every outbound call of a run is the one call built from the fields of
    a POST body that parsed to a value other than [null] and whose inputs
    could be converted to text. *)
Lemma handler_calls v env req net c :
  In c (snd (run net (handler v env req))) ->
  exists parsed text,
    req_method req = "POST" /\ req_json req = Ok parsed /\ parsed <> JNull /\
    user_text (fields_of parsed) = Ok text /\
    c = outbound_call v env text (fields_of parsed).
Proof.
  intros Hin.
  destruct (handler_cases v env req)
    as [H | [[e H] | (parsed & text & Hm & Hj & Hn & Ht & H)]].
  - rewrite H in Hin. destruct Hin.
  - rewrite H in Hin. destruct Hin.
  - rewrite (run_handler_value v env req net Hm Hj Hn Ht) in Hin.
    simpl in Hin. destruct Hin as [<- | []].
    exists parsed, text. auto.
Qed.

Lemma handler_fetch_bound v env req : fetch_bound 1 (handler v env req).
Proof.
  destruct (handler_cases v env req)
    as [H | [[e H] | (parsed & text & Hm & Hj & Hn & Ht & H)]]; rewrite H.
  - exact I.
  - exact I.
  - simpl. intros r. apply settle_no_fetch.
Qed.

(** The outcome of a run in which the call [c] was made. *)
Lemma run_with_call v env req net c :
  In c (snd (run net (handler v env req))) ->
  fst (run net (handler v env req)) = fst (run net (settle (net c))).
Proof.
  intros Hin.
  destruct (handler_calls v env req net c Hin)
    as (parsed & text & Hm & Hj & Hn & Ht & ->).
  rewrite (run_handler_value v env req net Hm Hj Hn Ht). reflexivity.
Qed.

(** ** Method check, error handling and relaying *)

(** C2. A request whose method is not POST is answered with status 405 and
    the text Method Not Allowed, and no outbound call is made. *)
Theorem non_post_rejected v env req net :
  req_method req <> "POST" ->
  run net (handler v env req) =
    (Ok (mkResponse "Method Not Allowed" 405 []), []).
Proof.
  intros H. rewrite (handler_not_post v env req H). reflexivity.
Qed.

(** C9. Whatever the request and whatever the network answers, the handler
    makes at most one outbound call: its program has room for one [fetch]
    only, and a run records at most one call. *)
Theorem at_most_one_outbound_call v env req :
  fetch_bound 1 (handler v env req) /\
  forall net, length (snd (run net (handler v env req))) <= 1.
Proof.
  split.
  - apply handler_fetch_bound.
  - intros net. apply fetch_bound_run, handler_fetch_bound.
Qed.

(** C7. The handler always resolves to a response: whenever its [try]
    block throws, the [catch] answers with status 500 and the text
    Server error: followed by the description of the exception, after the
    same outbound calls. *)
Theorem handler_catches_everything v env req net :
  (exists resp, fst (run net (handler v env req)) = Ok resp) /\
  (forall e,
     fst (run net (handler_try v env req)) = Thrown e ->
     run net (handler v env req) =
       (Ok (mkResponse ("Server error: " ++ describe e) 500 []),
        snd (run net (handler_try v env req)))).
Proof.
  assert (Hthrown : forall e,
     fst (run net (handler_try v env req)) = Thrown e ->
     run net (handler v env req) =
       (Ok (mkResponse ("Server error: " ++ describe e) 500 []),
        snd (run net (handler_try v env req)))).
  { intros e He. unfold handler.
    apply (run_try_thrown net _ handler_catch He). reflexivity. }
  split; [| exact Hthrown].
  destruct (fst (run net (handler_try v env req))) as [resp | e] eqn:E.
  - exists resp. unfold handler.
    rewrite (run_try_ok net _ handler_catch E). exact E.
  - rewrite (Hthrown e eq_refl). eexists. reflexivity.
Qed.

(** C4, as the code has it. When the outbound call is answered with a
    non-success status the handler responds with status 500. If the text of
    the answer can be read, the body is OpenAI error: followed by that text
    unchanged; if reading it fails, the body is Server error: followed by
    the description of that failure. *)
Theorem upstream_failure_relayed v env req net c up :
  In c (snd (run net (handler v env req))) ->
  net c = Ok up -> up_ok up = false ->
  (forall text,
     up_text up = Ok text ->
     fst (run net (handler v env req)) =
       Ok (mkResponse ("OpenAI error: " ++ text) 500 [])) /\
  (forall e,
     up_text up = Thrown e ->
     fst (run net (handler v env req)) =
       Ok (mkResponse ("Server error: " ++ describe e) 500 [])) /\
  (exists r, fst (run net (handler v env req)) = Ok r /\ resp_status r = 500).
Proof.
  intros Hin Hnet Hok.
  rewrite (run_with_call v env req net c Hin), Hnet.
  unfold settle, relay. simpl. rewrite Hok. simpl.
  split; [| split].
  - intros text Htext. rewrite Htext. reflexivity.
  - intros e Htext. rewrite Htext. reflexivity.
  - destruct (up_text up); simpl; eexists; split; reflexivity.
Qed.

(** C3, as the code has it. When the outbound call is answered with a
    success status and the answer parses as JSON to a value other than
    null, the handler takes the first choice's message content, or the text
    of an empty object when that content is undefined or falsy, and
    converts it to text: if the conversion succeeds it responds with status
    200, Content-Type application/json and that text (a string content
    unchanged, an object without an own toString member as the text
    [object Object]); if the conversion throws, as it does for an object
    with an own toString member, the [catch] answers with status 500. When
    the answer is null or does not parse, the [catch] answers with status
    500 as well. *)
Theorem upstream_success_relayed v env req net c up :
  In c (snd (run net (handler v env req))) ->
  net c = Ok up -> up_ok up = true ->
  (forall data,
     up_json up = Ok data -> data <> JNull ->
     (forall body,
        to_string (or_else (choice_content data) (JStr "{}")) = Ok body ->
        fst (run net (handler v env req)) =
          Ok (mkResponse body 200 [("Content-Type", "application/json")])) /\
     (forall e,
        to_string (or_else (choice_content data) (JStr "{}")) = Thrown e ->
        fst (run net (handler v env req)) =
          Ok (mkResponse ("Server error: " ++ describe e) 500 [])) /\
     (forall s, choice_content data = Some (JStr s) -> s <> "" ->
        fst (run net (handler v env req)) =
          Ok (mkResponse s 200 [("Content-Type", "application/json")])) /\
     (forall x, choice_content data = Some x -> truthy x = false ->
        fst (run net (handler v env req)) =
          Ok (mkResponse "{}" 200 [("Content-Type", "application/json")])) /\
     (choice_content data = None ->
        fst (run net (handler v env req)) =
          Ok (mkResponse "{}" 200 [("Content-Type", "application/json")])) /\
     (forall ps, choice_content data = Some (JObj ps) ->
        assoc "toString" ps = None ->
        fst (run net (handler v env req)) =
          Ok (mkResponse "[object Object]" 200
                [("Content-Type", "application/json")])) /\
     (forall ps t, choice_content data = Some (JObj ps) ->
        assoc "toString" ps = Some t ->
        fst (run net (handler v env req)) =
          Ok (mkResponse
                ("Server error: " ++ describe (engine_error NoPrimitiveValue))
                500 []))) /\
  (up_json up = Ok JNull ->
     fst (run net (handler v env req)) =
       Ok (mkResponse
             ("Server error: " ++ describe (engine_error ReadPropertyOfNull))
             500 [])) /\
  (forall e,
     up_json up = Thrown e ->
     fst (run net (handler v env req)) =
       Ok (mkResponse ("Server error: " ++ describe e) 500 [])).
Proof.
  intros Hin Hnet Hok.
  rewrite (run_with_call v env req net c Hin), Hnet.
  unfold settle, relay. simpl. rewrite Hok. simpl.
  split; [| split].
  - intros data Hj Hn. rewrite Hj. simpl.
    rewrite (first_content_value Hn). simpl.
    split; [| split; [| split; [| split; [| split; [| split]]]]].
    + intros body Hb. rewrite Hb. reflexivity.
    + intros e He. rewrite He. reflexivity.
    + intros s Hs Hne. rewrite Hs. simpl.
      apply String.eqb_neq in Hne. rewrite Hne. reflexivity.
    + intros x Hx Ht. rewrite Hx. simpl. rewrite Ht. reflexivity.
    + intros Hnone. rewrite Hnone. reflexivity.
    + intros ps Hc Ht. rewrite Hc. simpl. rewrite Ht. reflexivity.
    + intros ps t Hc Ht. rewrite Hc. simpl. rewrite Ht. reflexivity.
  - intros Hj. rewrite Hj. reflexivity.
  - intros e Hj. rewrite Hj. reflexivity.
Qed.

(** ** The outbound request *)

Lemma sent_user_content_eq v env text f :
  sent_user_content (outbound_call v env text f) = user_content text f.
Proof. reflexivity. Qed.

(** C8. The body of every outbound call has exactly the three properties
    model, messages and response_format: the model is the caller's when the
    body carries a truthy one and gpt-5 when it carries none; the messages
    are the system message followed by the user message; the response
    format is of type json_schema and carries the file's schema. *)
Theorem outbound_body_shape v env req net c :
  In c (snd (run net (handler v env req))) ->
  exists parsed text,
    req_json req = Ok parsed /\
    user_text (fields_of parsed) = Ok text /\
    call_body c =
      JObj [
        ("model", or_else (prop "model" parsed) (JStr "gpt-5"));
        ("messages",
           JArr [system_message; user_message text (fields_of parsed)]);
        ("response_format",
           JObj [("type", JStr "json_schema"); ("json_schema", schema v)])
      ] /\
    (prop "model" parsed = None ->
       or_else (prop "model" parsed) (JStr "gpt-5") = JStr "gpt-5") /\
    (forall m, prop "model" parsed = Some m -> truthy m = true ->
       or_else (prop "model" parsed) (JStr "gpt-5") = m) /\
    prop "role" system_message = Some (JStr "system") /\
    prop "role" (user_message text (fields_of parsed)) = Some (JStr "user").
Proof.
  intros Hin.
  destruct (handler_calls v env req net c Hin)
    as (parsed & text & Hm & Hj & Hn & Ht & ->).
  exists parsed, text. split; [exact Hj |]. split; [exact Ht |].
  split; [reflexivity |].
  split; [| split; [| split; reflexivity]].
  - intros H. rewrite H. reflexivity.
  - intros m H Htr. rewrite H. simpl. rewrite Htr. reflexivity.
Qed.

(** C6, as the code has it. The user message of every outbound call carries
    one content part of type image_url, with the supplied value as its url,
    exactly when the body's imageDataUrl is truthy; when the key is absent,
    or present with a falsy value such as the empty string, it carries
    none. *)
Theorem image_part_iff_truthy v env req net c :
  In c (snd (run net (handler v env req))) ->
  exists parsed text,
    req_json req = Ok parsed /\
    user_text (fields_of parsed) = Ok text /\
    (forall u, prop "imageDataUrl" parsed = Some u -> truthy u = true ->
       sent_user_content c = [text_part text; image_part u] /\
       image_parts (sent_user_content c) = [image_part u]) /\
    (forall u, prop "imageDataUrl" parsed = Some u -> truthy u = false ->
       sent_user_content c = [text_part text] /\
       image_parts (sent_user_content c) = []) /\
    (prop "imageDataUrl" parsed = None ->
       sent_user_content c = [text_part text] /\
       image_parts (sent_user_content c) = []).
Proof.
  intros Hin.
  destruct (handler_calls v env req net c Hin)
    as (parsed & text & Hm & Hj & Hn & Ht & ->).
  exists parsed, text. split; [exact Hj |]. split; [exact Ht |].
  rewrite sent_user_content_eq. unfold user_content. simpl.
  split; [| split].
  - intros u Hu Htr. rewrite Hu, Htr. split; reflexivity.
  - intros u Hu Htr. rewrite Hu, Htr. split; reflexivity.
  - intros Hu. rewrite Hu. split; reflexivity.
Qed.

(** C5, as the code has it. A POST whose body is the empty JSON object
    leads to one outbound call to the completion service in which the user
    text carries N/A for the Figma URL and the brief, standard for the
    detail and nothing for the rules, and the model is gpt-5. A POST with
    no body at all makes [req.json()] reject: the handler answers with
    status 500 and makes no outbound call. *)
Theorem empty_object_takes_defaults v env net :
  (exists c,
     snd (run net (handler v env (post (JObj [])))) = [c] /\
     call_url c = completions_url /\
     sent_user_text c = Some (JStr default_user_text) /\
     prop "model" (call_body c) = Some (JStr "gpt-5")) /\
  run net (handler v env post_without_body) =
    (Ok (mkResponse
           ("Server error: " ++ describe (engine_error UnexpectedEndOfJSON))
           500 []), []).
Proof.
  split.
  - exists (outbound_call v env default_user_text (fields_of (JObj []))).
    split; [| repeat split].
    rewrite (run_handler_value v env (post (JObj [])) net
               (parsed := JObj []) (text := default_user_text));
      [reflexivity | reflexivity | reflexivity | discriminate | reflexivity].
  - reflexivity.
Qed.

(** ** Truthiness of the inputs *)

Lemma assoc_remove_key k k' (ps : list (string * JSON)) :
  assoc k' (remove_key k ps) = if String.eqb k k' then None else assoc k' ps.
Proof.
  induction ps as [| [k0 v0] rest IH]; simpl.
  - destruct (String.eqb k k'); reflexivity.
  - destruct (String.eqb k k0) eqn:E0.
    + apply String.eqb_eq in E0. subst k0. rewrite IH.
      destruct (String.eqb k k') eqn:E; [reflexivity |].
      rewrite String.eqb_sym, E. reflexivity.
    + simpl. rewrite IH.
      destruct (String.eqb k' k0) eqn:E1; [| reflexivity].
      apply String.eqb_eq in E1. subst k0. rewrite E0. reflexivity.
Qed.

(** A falsy value under one of the keys gives the same user text as a body
    without that key. *)
Lemma falsy_same_text k ps x :
  In k body_keys -> assoc k ps = Some x -> truthy x = false ->
  user_text (fields_of (JObj ps)) =
  user_text (fields_of (JObj (remove_key k ps))).
Proof.
  intros Hk He Ht.
  unfold user_text, fields_of, interp, or_else, prop.
  cbn [figmaUrl brief rules model detail imageDataUrl].
  rewrite !assoc_remove_key.
  unfold body_keys in Hk. simpl in Hk.
  destruct Hk as [<- | [<- | [<- | [<- | [<- | [<- | []]]]]]];
    cbn [String.eqb Ascii.eqb Bool.eqb]; rewrite ?He, ?Ht; reflexivity.
Qed.

(** A falsy value under one of the keys gives the same call as a body
    without that key. *)
Lemma falsy_same_call v env text k ps x :
  In k body_keys -> assoc k ps = Some x -> truthy x = false ->
  outbound_call v env text (fields_of (JObj ps)) =
  outbound_call v env text (fields_of (JObj (remove_key k ps))).
Proof.
  intros Hk He Ht.
  unfold outbound_call, request_body, messages, user_message, user_content,
    fields_of, or_else, prop.
  cbn [figmaUrl brief rules model detail imageDataUrl].
  rewrite !assoc_remove_key.
  unfold body_keys in Hk. simpl in Hk.
  destruct Hk as [<- | [<- | [<- | [<- | [<- | [<- | []]]]]]];
    cbn [String.eqb Ascii.eqb Bool.eqb]; rewrite ?He, ?Ht; reflexivity.
Qed.

(** Two bodies that give the same user text and the same outbound call are
    handled alike. *)
Lemma handler_same_call v env method (j1 j2 : JSON) :
  j1 <> JNull -> j2 <> JNull ->
  user_text (fields_of j1) = user_text (fields_of j2) ->
  (forall text,
     outbound_call v env text (fields_of j1) =
     outbound_call v env text (fields_of j2)) ->
  handler v env (mkRequest method (BodyJson j1)) =
  handler v env (mkRequest method (BodyJson j2)).
Proof.
  intros H1 H2 Ht Hc.
  destruct (String.eqb method "POST") eqn:Hm.
  - apply String.eqb_eq in Hm.
    destruct (user_text (fields_of j2)) as [text | e] eqn:E.
    + rewrite (handler_body_value v env (mkRequest method (BodyJson j1))
                 (parsed := j1) (text := text));
        [| exact Hm | reflexivity | exact H1 | exact Ht].
      rewrite (handler_body_value v env (mkRequest method (BodyJson j2))
                 (parsed := j2) (text := text));
        [| exact Hm | reflexivity | exact H2 | exact E].
      rewrite Hc. reflexivity.
    + rewrite (handler_body_unconvertible v env
                 (mkRequest method (BodyJson j1)) (parsed := j1) (e := e));
        [| exact Hm | reflexivity | exact H1 | exact Ht].
      rewrite (handler_body_unconvertible v env
                 (mkRequest method (BodyJson j2)) (parsed := j2) (e := e));
        [| exact Hm | reflexivity | exact H2 | exact E].
      reflexivity.
  - apply String.eqb_neq in Hm.
    rewrite !handler_not_post by exact Hm. reflexivity.
Qed.

(** C10. Defaults are decided by truthiness. A body in which one of the
    keys holds the empty string is handled exactly as the body without
    that key; in particular an empty figmaUrl or brief is interpolated as
    N/A, an empty detail as standard, an empty model is sent as gpt-5, and
    an empty imageDataUrl adds no image part. *)
Theorem empty_string_as_absent v env :
  (forall method ps k,
     In k body_keys -> assoc k ps = Some (JStr "") ->
     handler v env (mkRequest method (BodyJson (JObj ps))) =
     handler v env (mkRequest method (BodyJson (JObj (remove_key k ps))))) /\
  interp (Some (JStr "")) "N/A" = Ok "N/A" /\
  interp (Some (JStr "")) "standard" = Ok "standard" /\
  or_else (Some (JStr "")) (JStr "gpt-5") = JStr "gpt-5" /\
  (forall text f,
     imageDataUrl f = Some (JStr "") -> user_content text f = [text_part text]) /\
  (forall net,
     run net (handler v env (post (JObj [
       ("figmaUrl", JStr ""); ("brief", JStr ""); ("rules", JStr "");
       ("model", JStr ""); ("detail", JStr ""); ("imageDataUrl", JStr "")]))) =
     run net (handler v env (post (JObj [])))).
Proof.
  split; [| repeat split].
  - intros method ps k Hk He.
    apply handler_same_call; try discriminate.
    + apply (@falsy_same_text k ps (JStr "") Hk He). reflexivity.
    + intros text.
      apply (@falsy_same_call v env text k ps (JStr "") Hk He). reflexivity.
  - intros text f Hf. unfold user_content. rewrite Hf. reflexivity.
Qed.

(** ** The schema sent upstream *)

(** C1, as the code has it. Every outbound call carries the object returned
    by the file's own [schema()] as its json_schema constraint, with exactly
    the five documented top-level fields, all required. Compared with the
    documented envelope, [api/generate.js] declares documented names only
    but leaves out the fields of trace and of coverage and does not require
    uiDataModel.entities; the first unnamed copy declares documented names
    only but leaves out trace, examples, selectors, constraints, enum,
    relations, jsonSchemas and sqlDDL and does not require the two fields
    of coverage; the second unnamed copy declares every documented name,
    declares besides them five properties below constraints and three
    below the items of relations, and does not require uiDataModel.entities
    nor the fields of trace and coverage. In all three every documented
    object, sequence and string has that type, and every required entry is
    a field documented without a question mark. *)
Theorem sent_schema_against_documentation v env req net c :
  In c (snd (run net (handler v env req))) ->
  at_path json_schema_path (call_body c) = Some (schema v) /\
  (exists top,
     prop "schema" (schema v) = Some top /\
     map fst (properties_of top) = top_level_names /\
     required_of top = top_level_names) /\
  schema_diff (schema v) =
    Some
      match v with
      | ApiGenerate =>
          mkSchemaDiff
            []
            ["userStories[].trace.ui_nodes";
             "userStories[].trace.entities";
             "validationReport.coverage.uiComponentsCoveredPct";
             "validationReport.coverage.fieldsWithTestsPct"]
            []
            ["uiDataModel.entities"]
            []
      | Part000 =>
          mkSchemaDiff
            []
            ["userStories[].trace";
             "declarativeStories[].scenarios[].examples";
             "imperativeTests[].selectors";
             "uiDataModel.entities[].fields[].constraints";
             "uiDataModel.entities[].fields[].enum";
             "uiDataModel.entities[].relations";
             "uiDataModel.jsonSchemas";
             "uiDataModel.sqlDDL"]
            []
            ["validationReport.coverage.uiComponentsCoveredPct";
             "validationReport.coverage.fieldsWithTestsPct"]
            []
      | Part001 =>
          mkSchemaDiff
            ["uiDataModel.entities[].fields[].constraints.minLength";
             "uiDataModel.entities[].fields[].constraints.maxLength";
             "uiDataModel.entities[].fields[].constraints.pattern";
             "uiDataModel.entities[].fields[].constraints.minimum";
             "uiDataModel.entities[].fields[].constraints.maximum";
             "uiDataModel.entities[].relations[].type";
             "uiDataModel.entities[].relations[].target";
             "uiDataModel.entities[].relations[].on"]
            []
            []
            ["userStories[].trace.ui_nodes";
             "userStories[].trace.entities";
             "uiDataModel.entities";
             "validationReport.coverage.uiComponentsCoveredPct";
             "validationReport.coverage.fieldsWithTestsPct"]
            []
      end.
Proof.
  intros Hin.
  destruct (handler_calls v env req net c Hin)
    as (parsed & text & Hm & Hj & Hn & Ht & ->).
  split; [reflexivity |].
  split.
  - destruct v; eexists; (split; [reflexivity | split; reflexivity]).
  - destruct v; vm_compute; reflexivity.
Qed.

(** * Further properties of the handler *)

(** ** How a run ends *)

(** The three ways the part after the outbound call can end. *)
Lemma settle_cases net (r : JsResult Upstream) :
  (exists e,
     fst (run net (settle r)) =
       Ok (mkResponse ("Server error: " ++ describe e) 500 [])) \/
  (exists up text,
     r = Ok up /\ up_ok up = false /\ up_text up = Ok text /\
     fst (run net (settle r)) =
       Ok (mkResponse ("OpenAI error: " ++ text) 500 [])) \/
  (exists up data body,
     r = Ok up /\ up_ok up = true /\ up_json up = Ok data /\ data <> JNull /\
     to_string (or_else (choice_content data) (JStr "{}")) = Ok body /\
     fst (run net (settle r)) =
       Ok (mkResponse body 200 [("Content-Type", "application/json")])).
Proof.
  unfold settle, relay.
  destruct r as [[ok text data] | e]; simpl.
  - destruct ok; simpl.
    + destruct data as [d | e]; simpl.
      * destruct (null_or_value d) as [-> | Hn].
        -- left. eexists. reflexivity.
        -- rewrite (first_content_value Hn). simpl.
           destruct (to_string (or_else (choice_content d) (JStr "{}")))
             as [body | e] eqn:Eb; simpl.
           ++ right. right. exists (mkUpstream true text (Ok d)), d, body.
              repeat split; auto.
           ++ left. exists e. reflexivity.
      * left. exists e. reflexivity.
    + destruct text as [t | e]; simpl.
      * right. left. exists (mkUpstream false (Ok t) data), t. auto.
      * left. exists e. reflexivity.
  - left. exists e. reflexivity.
Qed.

(** The ways a run can go, with the method and body that lead there. *)
Lemma run_cases v env req net :
  (req_method req <> "POST" /\
   run net (handler v env req) =
     (Ok (mkResponse "Method Not Allowed" 405 []), [])) \/
  (req_method req = "POST" /\
   exists e,
     run net (handler v env req) =
       (Ok (mkResponse ("Server error: " ++ describe e) 500 []), [])) \/
  (req_method req = "POST" /\
   exists parsed text,
     req_json req = Ok parsed /\ parsed <> JNull /\
     user_text (fields_of parsed) = Ok text /\
     run net (handler v env req) =
       (fst (run net
               (settle (net (outbound_call v env text (fields_of parsed))))),
        [outbound_call v env text (fields_of parsed)])).
Proof.
  destruct (String.eqb (req_method req) "POST") eqn:Hm.
  - apply String.eqb_eq in Hm. right.
    destruct (req_json req) as [parsed | e] eqn:Hj.
    + destruct (null_or_value parsed) as [-> | Hn].
      * left. split; [exact Hm |]. eexists.
        rewrite (handler_body_null v env req Hm Hj). reflexivity.
      * destruct (user_text (fields_of parsed)) as [text | e] eqn:Ht.
        -- right. split; [exact Hm |]. exists parsed, text.
           split; [reflexivity |]. split; [exact Hn |]. split; [exact Ht |].
           apply (run_handler_value v env req net Hm Hj Hn Ht).
        -- left. split; [exact Hm |]. exists e.
           rewrite (handler_body_unconvertible v env req Hm Hj Hn Ht).
           reflexivity.
    + left. split; [exact Hm |]. exists e.
      rewrite (handler_body_rejected v env req Hm Hj). reflexivity.
  - apply String.eqb_neq in Hm. left. split; [exact Hm |].
    rewrite (handler_not_post v env req Hm). reflexivity.
Qed.

(** X1. A POST whose body [req.json()] rejects (malformed JSON, an
    unreadable stream) is answered with status 500 and the description of
    that rejection, and no outbound call is made. *)
Theorem rejected_body_makes_no_call v env req net e :
  req_method req = "POST" -> req_json req = Thrown e ->
  run net (handler v env req) =
    (Ok (mkResponse ("Server error: " ++ describe e) 500 []), []).
Proof.
  intros Hm Hj. rewrite (handler_body_rejected v env req Hm Hj). reflexivity.
Qed.

(** X2. A POST whose body is the JSON value null cannot be destructured:
    the handler answers with status 500 and the engine's TypeError, and no
    outbound call is made. *)
Theorem null_body_makes_no_call v env req net :
  req_method req = "POST" -> req_json req = Ok JNull ->
  run net (handler v env req) =
    (Ok (mkResponse
           ("Server error: " ++ describe (engine_error DestructureNull))
           500 []), []).
Proof.
  intros Hm Hj. rewrite (handler_body_null v env req Hm Hj). reflexivity.
Qed.

(** X3. When [fetch] itself rejects (the network fails), the handler
    answers with status 500 and the description of the rejection; the one
    call has been made and is not repeated. *)
Theorem network_failure_reported v env req net c e :
  In c (snd (run net (handler v env req))) ->
  net c = Thrown e ->
  run net (handler v env req) =
    (Ok (mkResponse ("Server error: " ++ describe e) 500 []), [c]).
Proof.
  intros Hin Hnet.
  destruct (handler_calls v env req net c Hin)
    as (parsed & text & Hm & Hj & Hn & Ht & ->).
  rewrite (run_handler_value v env req net Hm Hj Hn Ht), Hnet. reflexivity.
Qed.

(** X4. When the upstream answers with a non-success status and reading
    its text fails, the failure of the read is what the caller gets, with
    status 500 and the Server error prefix, not the OpenAI error one. *)
Theorem unreadable_failure_text_reported v env req net c up e :
  In c (snd (run net (handler v env req))) ->
  net c = Ok up -> up_ok up = false -> up_text up = Thrown e ->
  fst (run net (handler v env req)) =
    Ok (mkResponse ("Server error: " ++ describe e) 500 []).
Proof.
  intros Hin Hnet Hok Htext.
  rewrite (run_with_call v env req net c Hin), Hnet.
  unfold settle, relay. simpl. rewrite Hok, Htext. reflexivity.
Qed.

(** X5. The handler answers 200 only after exactly one outbound call that
    the upstream answered with a success status and a JSON value other
    than null; the body is the first choice's content, or the text of an
    empty object, converted to text. *)
Theorem ok_only_after_upstream_success v env req net r :
  fst (run net (handler v env req)) = Ok r -> resp_status r = 200 ->
  exists c up data,
    snd (run net (handler v env req)) = [c] /\
    net c = Ok up /\ up_ok up = true /\
    up_json up = Ok data /\ data <> JNull /\
    to_string (or_else (choice_content data) (JStr "{}")) = Ok (resp_body r).
Proof.
  intros Hr Hs.
  destruct (run_cases v env req net)
    as [[_ H] | [[_ [e H]] | [_ (parsed & text & Hj & Hn & Ht & H)]]];
    rewrite H in Hr |- *; simpl in Hr.
  - injection Hr as <-. discriminate.
  - injection Hr as <-. discriminate.
  - destruct (settle_cases net
                (net (outbound_call v env text (fields_of parsed))))
      as [[e H1] | [(up & t & _ & _ & _ & H1)
                   | (up & data & body & Hnet & Hok & Hd & Hnn & Hb & H1)]];
      rewrite H1 in Hr; injection Hr as <-; try discriminate.
    exists (outbound_call v env text (fields_of parsed)), up, data.
    repeat split; auto.
Qed.

(** X6. Every response has status 200, 405 or 500, and it is 405 exactly
    when the method is not POST. *)
Theorem status_is_200_405_or_500 v env req net :
  exists r,
    fst (run net (handler v env req)) = Ok r /\
    (resp_status r = 200 \/ resp_status r = 405 \/ resp_status r = 500) /\
    (resp_status r = 405 <-> req_method req <> "POST").
Proof.
  destruct (run_cases v env req net)
    as [[Hm H] | [[Hm [e H]] | [Hm (parsed & text & Hj & Hn & Ht & H)]]];
    rewrite H; simpl.
  - eexists. split; [reflexivity |]. simpl. split; [auto |]. split; auto.
  - eexists. split; [reflexivity |]. simpl. split; [auto |].
    split; [discriminate | intros Hne; contradiction].
  - destruct (settle_cases net
                (net (outbound_call v env text (fields_of parsed))))
      as [[e H1] | [(up & t & _ & _ & _ & H1)
                   | (up & data & body & _ & _ & _ & _ & _ & H1)]];
      rewrite H1; eexists; (split; [reflexivity |]); simpl;
      (split; [auto |]); (split; [discriminate | intros Hne; contradiction]).
Qed.

(** X7. The handler sets a header of its own only on success: a 200
    response carries Content-Type application/json, and every other
    response carries no header from the handler. *)
Theorem content_type_only_on_success v env req net :
  exists r,
    fst (run net (handler v env req)) = Ok r /\
    resp_headers r =
      if Nat.eqb (resp_status r) 200
      then [("Content-Type", "application/json")] else [].
Proof.
  destruct (run_cases v env req net)
    as [[Hm H] | [[Hm [e H]] | [Hm (parsed & text & Hj & Hn & Ht & H)]]];
    rewrite H; simpl.
  - eexists. split; reflexivity.
  - eexists. split; reflexivity.
  - destruct (settle_cases net
                (net (outbound_call v env text (fields_of parsed))))
      as [[e H1] | [(up & t & _ & _ & _ & H1)
                   | (up & data & body & _ & _ & _ & _ & _ & H1)]];
      rewrite H1; eexists; split; reflexivity.
Qed.

(** ** The outbound call *)

(** X8. Every outbound call is a POST to the chat completions URL with
    exactly two headers: the bearer token read from the environment and the
    JSON content type. The key plays no part in whether the call is made:
    the same request without a key makes the same call, with the token text
    undefined. *)
Theorem outbound_call_envelope v env req net c :
  In c (snd (run net (handler v env req))) ->
  call_url c = "https://api.openai.com/v1/chat/completions" /\
  call_method c = "POST" /\
  (forall key, OPENAI_API_KEY env = Some key ->
     call_headers c = [("Authorization", "Bearer " ++ key);
                       ("Content-Type", "application/json")]) /\
  (OPENAI_API_KEY env = None ->
     call_headers c = [("Authorization", "Bearer undefined");
                       ("Content-Type", "application/json")]) /\
  (forall net',
     snd (run net' (handler v (mkEnv None) req)) =
       [mkFetchCall (call_url c) (call_method c)
          [("Authorization", "Bearer undefined");
           ("Content-Type", "application/json")]
          (call_body c)]).
Proof.
  intros Hin.
  destruct (handler_calls v env req net c Hin)
    as (parsed & text & Hm & Hj & Hn & Ht & ->).
  split; [reflexivity |]. split; [reflexivity |].
  unfold outbound_call. simpl. split; [| split].
  - intros key Hk. rewrite Hk. reflexivity.
  - intros Hk. rewrite Hk. reflexivity.
  - intros net'.
    rewrite (run_handler_value v (mkEnv None) req net' Hm Hj Hn Ht).
    reflexivity.
Qed.

(** X9. In the object the handler hands to [JSON.stringify], the model is
    a truthy value: a missing, empty or otherwise falsy model of the body
    is replaced by gpt-5 before the request is written. *)
Theorem model_sent_is_truthy v env req net c :
  In c (snd (run net (handler v env req))) ->
  exists parsed m,
    req_json req = Ok parsed /\
    prop "model" (call_body c) = Some m /\ truthy m = true /\
    (prop "model" parsed = None -> m = JStr "gpt-5") /\
    (forall x, prop "model" parsed = Some x -> truthy x = false ->
       m = JStr "gpt-5").
Proof.
  intros Hin.
  destruct (handler_calls v env req net c Hin)
    as (parsed & text & Hm & Hj & Hn & Ht & ->).
  exists parsed. eexists. split; [exact Hj |]. split; [reflexivity |].
  unfold or_else, fields_of. cbn [model].
  destruct (prop "model" parsed) as [x |].
  - destruct (truthy x) eqn:Hx.
    + split; [exact Hx |]. split; [discriminate |].
      intros y Hy Hf. injection Hy as <-. rewrite Hx in Hf. discriminate.
    + split; [reflexivity |]. split; reflexivity.
  - split; [reflexivity |]. split; reflexivity.
Qed.

(** A program without [fetch] runs the same on every network. *)
Lemma run_without_fetch {A : Type} net1 net2 (p : Prog A) :
  fetch_bound 0 p -> run net1 p = run net2 p.
Proof.
  destruct p as [a | e | c k]; simpl; intros H;
    [reflexivity | reflexivity | contradiction].
Qed.

(** X10. Once the outbound call is made, the response depends on nothing
    but the answer to it: two runs whose calls are answered alike respond
    alike, whatever their requests, files and environments. *)
Theorem response_depends_on_answer_only
    v1 env1 req1 net1 c1 v2 env2 req2 net2 c2 :
  In c1 (snd (run net1 (handler v1 env1 req1))) ->
  In c2 (snd (run net2 (handler v2 env2 req2))) ->
  net1 c1 = net2 c2 ->
  fst (run net1 (handler v1 env1 req1)) =
  fst (run net2 (handler v2 env2 req2)).
Proof.
  intros H1 H2 Hnet.
  rewrite (run_with_call v1 env1 req1 net1 c1 H1).
  rewrite (run_with_call v2 env2 req2 net2 c2 H2).
  rewrite Hnet.
  rewrite (run_without_fetch net1 net2 (settle (net2 c2)) (settle_no_fetch _)).
  reflexivity.
Qed.

(** ** What the handler reads from the body *)

(** X11. Keys other than the six the handler reads are ignored: dropping
    such a key from the body changes nothing in the handler's behaviour. *)
Theorem unknown_keys_ignored v env method ps k :
  ~ In k body_keys ->
  handler v env (mkRequest method (BodyJson (JObj ps))) =
  handler v env (mkRequest method (BodyJson (JObj (remove_key k ps)))).
Proof.
  intros Hk.
  assert (Hf : fields_of (JObj (remove_key k ps)) = fields_of (JObj ps)).
  { unfold fields_of, prop. rewrite !assoc_remove_key.
    unfold body_keys in Hk. simpl in Hk.
    repeat match goal with
    | |- context [String.eqb k ?s] =>
        let E := fresh "E" in
        destruct (String.eqb k s) eqn:E;
        [apply String.eqb_eq in E; subst k; exfalso; apply Hk; tauto |]
    end.
    reflexivity. }
  apply handler_same_call; try discriminate.
  - rewrite Hf. reflexivity.
  - intros text. rewrite Hf. reflexivity.
Qed.

(** X12. A body that parses to a number, a string, a boolean or an array
    has none of the keys: it is handled exactly as the empty object, with
    every default. *)
Theorem non_object_body_as_empty_object v env method (parsed : JSON) :
  parsed <> JNull -> is_object parsed = false ->
  handler v env (mkRequest method (BodyJson parsed)) =
  handler v env (mkRequest method (BodyJson (JObj []))).
Proof.
  intros Hn Ho.
  apply handler_same_call; [exact Hn | discriminate | |].
  - destruct parsed; try discriminate; reflexivity.
  - intros text. destruct parsed; try discriminate; reflexivity.
Qed.

(** X13. Any falsy value under one of the six keys (null, false, a falsy
    number, the empty string) is handled exactly as the body without that
    key. *)
Theorem falsy_value_as_absent v env method ps k x :
  In k body_keys -> assoc k ps = Some x -> truthy x = false ->
  handler v env (mkRequest method (BodyJson (JObj ps))) =
  handler v env (mkRequest method (BodyJson (JObj (remove_key k ps)))).
Proof.
  intros Hk He Ht.
  apply handler_same_call; try discriminate.
  - apply (@falsy_same_text k ps x Hk He Ht).
  - intros text. apply (@falsy_same_call v env text k ps x Hk He Ht).
Qed.

(** X14. Inputs given as strings reach the prompt unchanged: when the
    Figma URL, the brief and the detail are non-empty strings and the rules
    are a string, the text of the user message is the template with these
    four strings in place, character for character. *)
Theorem string_inputs_verbatim v env req net c parsed f b d r :
  In c (snd (run net (handler v env req))) ->
  req_json req = Ok parsed ->
  prop "figmaUrl" parsed = Some (JStr f) -> f <> "" ->
  prop "brief" parsed = Some (JStr b) -> b <> "" ->
  prop "detail" parsed = Some (JStr d) -> d <> "" ->
  prop "rules" parsed = Some (JStr r) ->
  sent_user_text c = Some (JStr (lines [
    "FIGMA: " ++ f;
    "BRIEF: " ++ b;
    "DETAIL: " ++ d;
    "RULES (YAML or text):";
    r;
    "";
    "Please infer intents from UI labels and flows if present. Produce comprehensive but concise artifacts.";
    "Link stories/tests/model via trace where obvious."
  ])).
Proof.
  intros Hin Hj Hf Hfn Hb Hbn Hd Hdn Hr.
  destruct (handler_calls v env req net c Hin)
    as (parsed' & text & _ & Hj' & _ & Ht & ->).
  rewrite Hj in Hj'. injection Hj' as <-.
  apply String.eqb_neq in Hfn, Hbn, Hdn.
  unfold sent_user_text. rewrite sent_user_content_eq.
  unfold user_content, text_part. cbn [prop assoc String.eqb Ascii.eqb Bool.eqb].
  revert Ht. unfold user_text, interp, or_else, fields_of.
  cbn [figmaUrl brief rules model detail imageDataUrl].
  rewrite Hf, Hb, Hd, Hr. cbn [truthy to_string and_then].
  rewrite Hfn, Hbn, Hdn. cbn [negb and_then].
  destruct (String.eqb r "") eqn:Er; cbn [negb to_string and_then];
    intros Ht; injection Ht as <-.
  - apply String.eqb_eq in Er. subst r. reflexivity.
  - reflexivity.
Qed.

(** Induction on values, with the property available for every element
    of an array and every member of an object. *)
Lemma JSON_nested_ind (P : JSON -> Prop) :
  P JNull ->
  (forall b, P (JBool b)) ->
  (forall n, P (JNum n)) ->
  (forall s, P (JStr s)) ->
  (forall items, Forall P items -> P (JArr items)) ->
  (forall ps, Forall (fun kv => P (snd kv)) ps -> P (JObj ps)) ->
  forall v, P v.
Proof.
  intros Hnull Hbool Hnum Hstr Harr Hobj.
  fix IH 1. intros [| b | n | s | items | ps].
  - exact Hnull.
  - apply Hbool.
  - apply Hnum.
  - apply Hstr.
  - apply Harr.
    exact ((fix go (l : list JSON) : Forall P l :=
              match l with
              | [] => Forall_nil P
              | x :: r => Forall_cons x (IH x) (go r)
              end) items).
  - apply Hobj.
    exact ((fix go (l : list (string * JSON))
              : Forall (fun kv => P (snd kv)) l :=
              match l with
              | [] => Forall_nil _
              | kv :: r =>
                  Forall_cons (P := fun kv => P (snd kv)) kv
                    (IH (snd kv)) (go r)
              end) ps).
Qed.

(** Every conversion to text that throws, throws the same fault. *)
Lemma to_string_thrown (v : JSON) :
  forall e, to_string v = Thrown e -> e = engine_error NoPrimitiveValue.
Proof.
  induction v as [| b | n | s | items IH | ps _] using JSON_nested_ind;
    intros e; simpl.
  - discriminate.
  - destruct b; discriminate.
  - discriminate.
  - discriminate.
  - match goal with
    | |- and_then (?elems items) _ = _ -> _ =>
        assert (Hl : forall e', elems items = Thrown e' ->
                                e' = engine_error NoPrimitiveValue)
    end.
    { induction IH as [| x r Hx Hr IHr]; intros e' He'; simpl in He'.
      - discriminate.
      - destruct x;
          try (destruct (to_string _) eqn:Ex in He'; simpl in He';
               [| injection He' as <-; exact (Hx _ Ex)]);
          match type of He' with
          | and_then ?t _ = _ =>
              destruct t eqn:Er; simpl in He';
                [discriminate | injection He' as <-; exact (IHr _ eq_refl)]
          end. }
    match goal with
    | |- and_then ?t _ = _ -> _ =>
        destruct t eqn:E; simpl; intros H;
          [discriminate | injection H as <-; exact (Hl _ eq_refl)]
    end.
  - destruct (assoc "toString" ps); intros H; [| discriminate].
    injection H as <-. reflexivity.
Qed.

(** An object with an own [toString] property under one of the four text
    inputs makes the template literal throw. *)
Lemma user_text_unconvertible k (parsed : JSON) ps t :
  In k ["figmaUrl"; "brief"; "detail"; "rules"] ->
  prop k parsed = Some (JObj ps) -> assoc "toString" ps = Some t ->
  user_text (fields_of parsed) = Thrown (engine_error NoPrimitiveValue).
Proof.
  intros Hk Hp Ht.
  assert (Hthrow : forall d,
            interp (prop k parsed) d = Thrown (engine_error NoPrimitiveValue)).
  { intros d. unfold interp, or_else. rewrite Hp. simpl. rewrite Ht.
    reflexivity. }
  unfold user_text, fields_of.
  cbn [figmaUrl brief rules model detail imageDataUrl].
  simpl in Hk.
  destruct Hk as [<- | [<- | [<- | [<- | []]]]];
    repeat match goal with
    | |- context [interp (prop ?key parsed) ?d] =>
        first
          [ rewrite (Hthrow d); simpl; reflexivity
          | let E := fresh "E" in
            destruct (interp (prop key parsed) d) eqn:E; simpl;
            [| apply to_string_thrown in E; subst; reflexivity] ]
    end.
Qed.

(** X21. A body in which the Figma URL, the brief, the detail or the rules
    is an object with an own [toString] property cannot be put into the
    prompt: the template literal throws, the handler answers with status
    500 and the engine's TypeError, and no outbound call is made. *)
Theorem unconvertible_input_makes_no_call v env req net k parsed ps t :
  req_method req = "POST" -> req_json req = Ok parsed ->
  In k ["figmaUrl"; "brief"; "detail"; "rules"] ->
  prop k parsed = Some (JObj ps) -> assoc "toString" ps = Some t ->
  run net (handler v env req) =
    (Ok (mkResponse
           ("Server error: " ++ describe (engine_error NoPrimitiveValue))
           500 []), []).
Proof.
  intros Hm Hj Hk Hp Ht.
  assert (Hn : parsed <> JNull) by (intros ->; discriminate).
  rewrite (handler_body_unconvertible v env req Hm Hj Hn
             (@user_text_unconvertible k parsed ps t Hk Hp Ht)).
  reflexivity.
Qed.

(** ** What the handler reads from the answer *)

(** The response to a successful answer that parsed to [data]. *)
Lemma run_with_data v env req net c up data :
  In c (snd (run net (handler v env req))) ->
  net c = Ok up -> up_ok up = true -> up_json up = Ok data -> data <> JNull ->
  fst (run net (handler v env req)) =
    Ok match to_string (or_else (choice_content data) (JStr "{}")) with
       | Ok body =>
           mkResponse body 200 [("Content-Type", "application/json")]
       | Thrown e => mkResponse ("Server error: " ++ describe e) 500 []
       end.
Proof.
  intros Hin Hnet Hok Hj Hn.
  rewrite (run_with_call v env req net c Hin), Hnet.
  unfold settle, relay. simpl. rewrite Hok, Hj. simpl.
  rewrite (first_content_value Hn). simpl.
  destruct (to_string _); reflexivity.
Qed.

(** X15. Of a successful answer only the first choice counts: the response
    is decided by the first element of [choices], whatever the further
    choices and the other properties of the answer. It is a 200 with the
    text of that choice's content (or of an empty object) when the content
    converts to text, and the 500 of the [catch] when it does not. *)
Theorem first_choice_decides v env req net c up data x rest :
  In c (snd (run net (handler v env req))) ->
  net c = Ok up -> up_ok up = true -> up_json up = Ok data ->
  prop "choices" data = Some (JArr (x :: rest)) ->
  fst (run net (handler v env req)) =
    Ok match to_string
               (or_else (opt_prop "content" (opt_prop "message" (Some x)))
                  (JStr "{}")) with
       | Ok body =>
           mkResponse body 200 [("Content-Type", "application/json")]
       | Thrown e => mkResponse ("Server error: " ++ describe e) 500 []
       end.
Proof.
  intros Hin Hnet Hok Hj Hc.
  assert (Hn : data <> JNull) by (intros ->; discriminate).
  rewrite (run_with_data v env req net c Hin Hnet Hok Hj Hn).
  unfold choice_content. rewrite Hc. reflexivity.
Qed.

(** X16. A successful answer without choices (no [choices] property, or
    an empty list) is relayed as the empty object with status 200. *)
Theorem no_choice_gives_empty_object v env req net c up data :
  In c (snd (run net (handler v env req))) ->
  net c = Ok up -> up_ok up = true -> up_json up = Ok data -> data <> JNull ->
  prop "choices" data = None \/ prop "choices" data = Some (JArr []) ->
  fst (run net (handler v env req)) =
    Ok (mkResponse "{}" 200 [("Content-Type", "application/json")]).
Proof.
  intros Hin Hnet Hok Hj Hn Hc.
  rewrite (run_with_data v env req net c Hin Hnet Hok Hj Hn).
  unfold choice_content. destruct Hc as [-> | ->]; reflexivity.
Qed.

(** X17. A first choice whose content is an object is not serialised. An
    object without an own [toString] property is answered as the text
    [object Object] with status 200; an object with one cannot be
    converted, and the handler answers with status 500 and the engine's
    TypeError. *)
Theorem object_content_not_serialised v env req net c up data ps :
  In c (snd (run net (handler v env req))) ->
  net c = Ok up -> up_ok up = true -> up_json up = Ok data ->
  choice_content data = Some (JObj ps) ->
  (assoc "toString" ps = None ->
   fst (run net (handler v env req)) =
     Ok (mkResponse "[object Object]" 200
           [("Content-Type", "application/json")])) /\
  (forall t, assoc "toString" ps = Some t ->
   fst (run net (handler v env req)) =
     Ok (mkResponse
           ("Server error: " ++ describe (engine_error NoPrimitiveValue))
           500 [])).
Proof.
  intros Hin Hnet Hok Hj Hc.
  assert (Hn : data <> JNull) by (intros ->; discriminate).
  rewrite (run_with_data v env req net c Hin Hnet Hok Hj Hn), Hc. simpl.
  split.
  - intros Ht. rewrite Ht. reflexivity.
  - intros t Ht. rewrite Ht. reflexivity.
Qed.

(** ** The description of an error *)

(** X18. The text after Server error: is the error's message when it has
    one and the error's name otherwise; it is empty only for an error with
    neither. *)
Theorem description_is_message_or_name (e : Exception) :
  describe e =
    (if String.eqb (err_message e) "" then err_name e else err_message e) /\
  (describe e = "" <-> err_name e = "" /\ err_message e = "").
Proof.
  destruct e as [name message]. unfold describe, error_to_string.
  destruct name, message; simpl; (split; [reflexivity |]);
    split; try (intros H; discriminate H); auto;
    intros [Hname Hmessage]; discriminate.
Qed.

(** ** The schema objects *)

(** X19. In each of the three files, every [required] list of the schema,
    at every level, names only properties declared beside it. *)
Theorem required_names_are_declared v :
  constraint_every_node required_declared (schema v) = true.
Proof. destruct v; vm_compute; reflexivity. Qed.

(** X20. The two unnamed copies close every object of their schema with
    [additionalProperties: false], at every level; [api/generate.js] does
    not. *)
Theorem objects_closed_in_strict_copies v :
  constraint_every_node closed_node (schema v) = true <-> v <> ApiGenerate.
Proof.
  destruct v; vm_compute; split; intros H;
    try discriminate; try reflexivity; try (exfalso; apply H; reflexivity).
Qed.

End Runtime.

(** * The properties on a concrete runtime

    The runtime is V8, on values without numbers. *)

Arguments typed {number} t.
Arguments JNull {number}.
Arguments JBool {number} b.
Arguments JStr {number} s.
Arguments schema {number} v.
Arguments get_request {number}.
Arguments post_without_body {number}.
Arguments upstream_failed {number} text.
Arguments upstream_unreadable {number} e.
Arguments completion {number} content.
Arguments text_part {number} text.
Arguments system_message {number}.
Arguments BodyUnreadable {number} e.

(** C1 as stated fails for [api/generate.js]: in the constraint it sends,
    trace and coverage are bare objects without the documented nested
    fields. *)
Lemma api_generate_schema_differs :
  exists c sent d,
    snd (run (always (upstream_ok "{}" (JObj [])))
           (handler no_number_truthy no_number_to_string v8_message ApiGenerate no_key (post (JObj [])))) = [c] /\
    at_path json_schema_path (call_body c) = Some sent /\
    at_path trace_path sent = Some (typed "object") /\
    at_path (trace_path ++ ["properties"; "ui_nodes"])%list sent = None /\
    at_path coverage_path sent = Some (typed "object") /\
    at_path (coverage_path ++ ["properties"; "uiComponentsCoveredPct"])%list
      sent = None /\
    schema_diff sent = Some d /\
    diff_missing d =
      ["userStories[].trace.ui_nodes";
       "userStories[].trace.entities";
       "validationReport.coverage.uiComponentsCoveredPct";
       "validationReport.coverage.fieldsWithTestsPct"].
Proof.
  eexists. eexists. eexists.
  split; [reflexivity |].
  split; [reflexivity |].
  repeat split; vm_compute; reflexivity.
Qed.

(** C3 as stated fails when the upstream answers with a success status and
    the JSON value null: reading [choices] throws and the [catch] answers
    with status 500. *)
Lemma upstream_null_answer_gives_500 :
  exists c up,
    snd (run (always (upstream_ok "null" JNull))
           (handler no_number_truthy no_number_to_string v8_message ApiGenerate no_key (post (JObj [])))) = [c] /\
    always (upstream_ok "null" JNull) c = Ok up /\
    up_ok up = true /\
    fst (run (always (upstream_ok "null" JNull))
           (handler no_number_truthy no_number_to_string v8_message ApiGenerate no_key (post (JObj [])))) =
      Ok (mkResponse
            "Server error: Cannot read properties of null (reading 'choices')"
            500 []).
Proof.
  eexists. eexists.
  split; [reflexivity |].
  split; [reflexivity |].
  split; reflexivity.
Qed.

(** C4 as stated fails when the upstream answers with a non-success status
    and its text cannot be read: the body of the 500 response carries the
    description of the read failure and no upstream text. *)
Lemma failed_answer_with_unreadable_text :
  exists c up,
    snd (run (always (upstream_unreadable (mkException "TypeError" "terminated")))
           (handler no_number_truthy no_number_to_string v8_message ApiGenerate no_key (post (JObj [])))) = [c] /\
    always (upstream_unreadable (mkException "TypeError" "terminated")) c =
      Ok up /\
    up_ok up = false /\
    fst (run (always (upstream_unreadable (mkException "TypeError" "terminated")))
           (handler no_number_truthy no_number_to_string v8_message ApiGenerate no_key (post (JObj [])))) =
      Ok (mkResponse "Server error: terminated" 500 []).
Proof.
  eexists. eexists.
  split; [reflexivity |].
  split; [reflexivity |].
  split; reflexivity.
Qed.

(** C5 as stated fails for a POST without any body: [req.json()] rejects,
    the [catch] answers with status 500 and no outbound call is made. *)
Lemma post_without_body_makes_no_call :
  run (always (upstream_ok "{}" (JObj [])))
    (handler no_number_truthy no_number_to_string v8_message ApiGenerate no_key post_without_body) =
  (Ok (mkResponse "Server error: Unexpected end of JSON input" 500 []), []).
Proof. reflexivity. Qed.

(** C6 as stated fails for a body whose imageDataUrl is the empty string:
    the key is present and the user message has its text part only. *)
Lemma empty_image_url_adds_no_part :
  exists c,
    assoc "imageDataUrl" [("imageDataUrl", @JStr no_number "")] =
      Some (JStr "") /\
    snd (run (always (upstream_ok "{}" (JObj [])))
           (handler no_number_truthy no_number_to_string v8_message ApiGenerate no_key
              (post (JObj [("imageDataUrl", JStr "")])))) = [c] /\
    length (sent_user_content c) = 1 /\
    image_parts (sent_user_content c) = [].
Proof.
  eexists.
  split; [reflexivity |].
  split; [reflexivity |].
  split; reflexivity.
Qed.

(** ** The theorems at concrete inputs *)

(** A GET request is refused without a call. *)
Lemma non_post_rejected_witness :
  req_method (@get_request no_number) <> "POST" /\
  run (always (upstream_ok "{}" (JObj [])))
    (handler no_number_truthy no_number_to_string v8_message ApiGenerate no_key get_request) =
  (Ok (mkResponse "Method Not Allowed" 405 []), []).
Proof.
  assert (H : req_method (@get_request no_number) <> "POST") by discriminate.
  split; [exact H |].
  exact (@non_post_rejected no_number no_number_truthy no_number_to_string v8_message ApiGenerate no_key get_request
           (always (upstream_ok "{}" (JObj []))) H).
Defined.

(** The rejection of [req.json()] on a POST without body is caught. *)
Lemma handler_catches_everything_witness :
  run (always (upstream_ok "{}" (JObj [])))
    (handler no_number_truthy no_number_to_string v8_message Part000 no_key post_without_body) =
  (Ok (mkResponse "Server error: Unexpected end of JSON input" 500 []), []).
Proof.
  destruct (@handler_catches_everything no_number no_number_truthy no_number_to_string v8_message
              Part000 no_key post_without_body
              (always (upstream_ok "{}" (JObj [])))) as [_ H].
  exact (H (mkException "SyntaxError" "Unexpected end of JSON input") eq_refl).
Defined.

(** An upstream failure with the text quota exceeded is relayed. *)
Lemma upstream_failure_relayed_witness :
  fst (run (always (upstream_failed "quota exceeded"))
         (handler no_number_truthy no_number_to_string v8_message Part001 no_key (post (JObj [])))) =
  Ok (mkResponse "OpenAI error: quota exceeded" 500 []).
Proof.
  assert (Hin : In (outbound_call no_number_truthy Part001 no_key default_user_text
                      (fields_of (JObj [])))
                   (snd (run (always (upstream_failed "quota exceeded"))
                           (handler no_number_truthy no_number_to_string v8_message Part001 no_key (post (JObj []))))))
    by (simpl; left; reflexivity).
  destruct (@upstream_failure_relayed no_number no_number_truthy no_number_to_string v8_message Part001 no_key (post (JObj [])) _ _
              (upstream_failed "quota exceeded") Hin eq_refl eq_refl)
    as [H _].
  exact (H "quota exceeded" eq_refl).
Defined.

(** The content of the first choice of a completion is relayed. *)
Lemma upstream_success_relayed_witness :
  fst (run (always (upstream_ok "..." (completion "[1,2]")))
         (handler no_number_truthy no_number_to_string v8_message Part001 no_key (post (JObj [])))) =
  Ok (mkResponse "[1,2]" 200 [("Content-Type", "application/json")]).
Proof.
  assert (Hin : In (outbound_call no_number_truthy Part001 no_key default_user_text
                      (fields_of (JObj [])))
                   (snd (run (always (upstream_ok "..." (completion "[1,2]")))
                           (handler no_number_truthy no_number_to_string v8_message Part001 no_key (post (JObj []))))))
    by (simpl; left; reflexivity).
  destruct (@upstream_success_relayed no_number no_number_truthy no_number_to_string v8_message Part001 no_key (post (JObj [])) _ _
              (upstream_ok "..." (completion "[1,2]")) Hin eq_refl eq_refl)
    as [H _].
  destruct (H (completion "[1,2]") eq_refl) as [H1 _]; [discriminate |].
  exact (H1 "[1,2]" eq_refl).
Defined.

(** The request body sent for a body that chooses the model gpt-4o. *)
Lemma outbound_body_shape_witness :
  exists (parsed : JSON no_number) text,
    parsed = JObj [("model", JStr "gpt-4o")] /\
    text = default_user_text /\
    call_body (outbound_call no_number_truthy ApiGenerate no_key text (fields_of parsed)) =
      JObj [
        ("model", JStr "gpt-4o");
        ("messages", JArr [system_message;
                           user_message no_number_truthy text
                             (fields_of parsed)]);
        ("response_format",
           JObj [("type", JStr "json_schema");
                 ("json_schema", schema ApiGenerate)])
      ].
Proof.
  assert (Hin : In (outbound_call no_number_truthy ApiGenerate no_key default_user_text
                      (fields_of (JObj [("model", @JStr no_number "gpt-4o")])))
                   (snd (run (always (upstream_ok "{}" (JObj [])))
                           (handler no_number_truthy no_number_to_string v8_message ApiGenerate no_key
                              (post (JObj [("model", JStr "gpt-4o")]))))))
    by (simpl; left; reflexivity).
  destruct (@outbound_body_shape no_number no_number_truthy no_number_to_string v8_message ApiGenerate no_key _ _ _ Hin)
    as (parsed & text & Hj & Ht & Hbody & _).
  injection Hj as <-. injection Ht as <-.
  eexists. eexists. split; [reflexivity |]. split; [reflexivity |].
  exact Hbody.
Defined.

(** A data URL under imageDataUrl becomes the one image part. *)
Lemma image_part_iff_truthy_witness :
  exists c,
    snd (run (always (upstream_ok "{}" (JObj [])))
           (handler no_number_truthy no_number_to_string v8_message ApiGenerate no_key
              (post (JObj [("imageDataUrl", JStr "data:image/png;base64,AAAA")]))))
      = [c] /\
    image_parts (sent_user_content c) =
      [image_part (@JStr no_number "data:image/png;base64,AAAA")].
Proof.
  eexists. split; [reflexivity |].
  assert (Hin : In (outbound_call no_number_truthy ApiGenerate no_key default_user_text
                      (fields_of
                         (JObj [("imageDataUrl",
                                 @JStr no_number "data:image/png;base64,AAAA")])))
                   (snd (run (always (upstream_ok "{}" (JObj [])))
                           (handler no_number_truthy no_number_to_string v8_message ApiGenerate no_key
                              (post (JObj [("imageDataUrl",
                                            JStr "data:image/png;base64,AAAA")]))))))
    by (simpl; left; reflexivity).
  destruct (@image_part_iff_truthy no_number no_number_truthy no_number_to_string v8_message ApiGenerate no_key _ _ _ Hin)
    as (parsed & text & Hj & _ & Htruthy & _).
  injection Hj as <-.
  destruct (Htruthy (JStr "data:image/png;base64,AAAA") eq_refl eq_refl)
    as [_ H].
  exact H.
Defined.

(** An empty figmaUrl next to a brief, and the brief alone. *)
Lemma empty_string_as_absent_witness :
  handler no_number_truthy no_number_to_string v8_message Part001 no_key
    (post (JObj [("figmaUrl", JStr ""); ("brief", JStr "checkout flow")])) =
  handler no_number_truthy no_number_to_string v8_message Part001 no_key
    (post (JObj [("brief", JStr "checkout flow")])).
Proof.
  destruct (@empty_string_as_absent no_number no_number_truthy no_number_to_string v8_message Part001 no_key) as [H _].
  apply (H "POST"
           [("figmaUrl", JStr ""); ("brief", JStr "checkout flow")]
           "figmaUrl").
  - simpl. left. reflexivity.
  - reflexivity.
Defined.

(** The constraint sent by the second unnamed copy, and what it declares
    beyond the documentation. *)
Lemma sent_schema_against_documentation_witness :
  exists d,
    at_path json_schema_path
      (call_body (outbound_call no_number_truthy Part001 no_key default_user_text
                    (fields_of (JObj [])))) = Some (@schema no_number Part001) /\
    schema_diff (@schema no_number Part001) = Some d /\
    diff_missing d = [] /\
    length (diff_undocumented d) = 8.
Proof.
  assert (Hin : In (outbound_call no_number_truthy Part001 no_key default_user_text
                      (fields_of (JObj [])))
                   (snd (run (always (upstream_ok "{}" (JObj [])))
                           (handler no_number_truthy no_number_to_string v8_message Part001 no_key (post (JObj []))))))
    by (simpl; left; reflexivity).
  destruct (@sent_schema_against_documentation no_number no_number_truthy no_number_to_string v8_message Part001 no_key _ _ _ Hin)
    as (H1 & _ & H2).
  eexists. split; [exact H1 |]. split; [exact H2 |]. split; reflexivity.
Defined.

(** ** The further properties at concrete inputs *)

(** A POST whose body is not JSON. *)
Lemma rejected_body_makes_no_call_witness :
  run (always (upstream_ok "{}" (JObj [])))
    (handler no_number_truthy no_number_to_string v8_message ApiGenerate no_key
       (mkRequest "POST"
          (BodyUnreadable (mkException "SyntaxError" "Unexpected token h")))) =
  (Ok (mkResponse "Server error: Unexpected token h" 500 []), []).
Proof.
  apply (@rejected_body_makes_no_call no_number no_number_truthy no_number_to_string v8_message ApiGenerate no_key
           (mkRequest "POST"
              (BodyUnreadable (mkException "SyntaxError" "Unexpected token h")))
           (always (upstream_ok "{}" (JObj [])))
           (mkException "SyntaxError" "Unexpected token h")).
  - reflexivity.
  - reflexivity.
Defined.

(** A POST whose body is the text null. *)
Lemma null_body_makes_no_call_witness :
  run (always (upstream_ok "{}" (JObj [])))
    (handler no_number_truthy no_number_to_string v8_message Part000 no_key (post JNull)) =
  (Ok (mkResponse
         "Server error: Cannot destructure property 'figmaUrl' of '(intermediate value)' as it is null."
         500 []), []).
Proof.
  apply (@null_body_makes_no_call no_number no_number_truthy no_number_to_string v8_message Part000 no_key (post JNull)
           (always (upstream_ok "{}" (JObj [])))).
  - reflexivity.
  - reflexivity.
Defined.

(** A network on which [fetch] fails. *)
Lemma network_failure_reported_witness :
  run (fun _ => Thrown (mkException "TypeError" "fetch failed"))
    (handler no_number_truthy no_number_to_string v8_message Part001 no_key (post (JObj []))) =
  (Ok (mkResponse "Server error: fetch failed" 500 []),
   [outbound_call no_number_truthy Part001 no_key default_user_text (fields_of (JObj []))]).
Proof.
  apply (@network_failure_reported no_number no_number_truthy no_number_to_string v8_message Part001 no_key (post (JObj []))
           (fun _ => Thrown (mkException "TypeError" "fetch failed"))
           (outbound_call no_number_truthy Part001 no_key default_user_text (fields_of (JObj [])))
           (mkException "TypeError" "fetch failed")).
  - simpl. left. reflexivity.
  - reflexivity.
Defined.

(** A failed answer whose text cannot be read. *)
Lemma unreadable_failure_text_reported_witness :
  fst (run (always (upstream_unreadable (mkException "TypeError" "terminated")))
         (handler no_number_truthy no_number_to_string v8_message Part001 no_key (post (JObj [])))) =
  Ok (mkResponse "Server error: terminated" 500 []).
Proof.
  apply (@unreadable_failure_text_reported no_number no_number_truthy no_number_to_string v8_message Part001 no_key
           (post (JObj []))
           (always (upstream_unreadable (mkException "TypeError" "terminated")))
           (outbound_call no_number_truthy Part001 no_key default_user_text (fields_of (JObj [])))
           (upstream_unreadable (mkException "TypeError" "terminated"))
           (mkException "TypeError" "terminated")).
  - simpl. left. reflexivity.
  - reflexivity.
  - reflexivity.
  - reflexivity.
Defined.

(** A 200 response and the call behind it. *)
Lemma ok_only_after_upstream_success_witness :
  exists c up data,
    snd (run (always (upstream_ok "..." (completion "[1,2]")))
           (handler no_number_truthy no_number_to_string v8_message Part001 no_key (post (JObj [])))) = [c] /\
    always (upstream_ok "..." (completion "[1,2]")) c = Ok up /\
    up_ok up = true /\ up_json up = Ok data /\ data <> JNull /\
    to_string no_number_to_string v8_message
      (or_else no_number_truthy (choice_content data) (JStr "{}")) =
      Ok "[1,2]".
Proof.
  exact (@ok_only_after_upstream_success no_number no_number_truthy no_number_to_string v8_message Part001 no_key
           (post (JObj []))
           (always (upstream_ok "..." (completion "[1,2]")))
           (mkResponse "[1,2]" 200 [("Content-Type", "application/json")])
           eq_refl eq_refl).
Defined.

(** The headers of a call made with a key, and the same request without
    one. *)
Lemma outbound_call_envelope_witness :
  call_headers (outbound_call no_number_truthy ApiGenerate (mkEnv (Some "sk-test"))
                  default_user_text (fields_of (JObj []))) =
    [("Authorization", "Bearer sk-test");
     ("Content-Type", "application/json")] /\
  snd (run (always (upstream_ok "{}" (JObj [])))
         (handler no_number_truthy no_number_to_string v8_message ApiGenerate (mkEnv None) (post (JObj [])))) =
    [mkFetchCall "https://api.openai.com/v1/chat/completions" "POST"
       [("Authorization", "Bearer undefined");
        ("Content-Type", "application/json")]
       (request_body no_number_truthy ApiGenerate default_user_text
          (fields_of (JObj [])))].
Proof.
  assert (Hin : In (outbound_call no_number_truthy ApiGenerate (mkEnv (Some "sk-test"))
                      default_user_text (fields_of (JObj [])))
                   (snd (run (always (upstream_ok "{}" (JObj [])))
                           (handler no_number_truthy no_number_to_string v8_message ApiGenerate (mkEnv (Some "sk-test"))
                              (post (JObj []))))))
    by (simpl; left; reflexivity).
  destruct (@outbound_call_envelope no_number no_number_truthy no_number_to_string v8_message ApiGenerate
              (mkEnv (Some "sk-test")) _ _ _ Hin) as (_ & _ & H & _ & Hnone).
  split.
  - exact (H "sk-test" eq_refl).
  - exact (Hnone (always (upstream_ok "{}" (JObj [])))).
Defined.

(** The model sent for a body whose model is the empty string. *)
Lemma model_sent_is_truthy_witness :
  exists m : JSON no_number,
    prop "model"
      (call_body (outbound_call no_number_truthy ApiGenerate no_key default_user_text
                    (fields_of (JObj [("model", JStr "")])))) = Some m /\
    truthy no_number_truthy m = true /\ m = JStr "gpt-5".
Proof.
  assert (Hin : In (outbound_call no_number_truthy ApiGenerate no_key default_user_text
                      (fields_of (JObj [("model", @JStr no_number "")])))
                   (snd (run (always (upstream_ok "{}" (JObj [])))
                           (handler no_number_truthy no_number_to_string v8_message ApiGenerate no_key
                              (post (JObj [("model", JStr "")]))))))
    by (simpl; left; reflexivity).
  destruct (@model_sent_is_truthy no_number no_number_truthy no_number_to_string v8_message ApiGenerate no_key _ _ _ Hin)
    as (parsed & m & Hj & Hm & Ht & _ & Hf).
  injection Hj as <-.
  exists m. split; [exact Hm |]. split; [exact Ht |].
  exact (Hf (JStr "") eq_refl eq_refl).
Defined.

(** Two different requests to two different files, answered alike. *)
Lemma response_depends_on_answer_only_witness :
  fst (run (always (upstream_failed "quota exceeded"))
         (handler no_number_truthy no_number_to_string v8_message ApiGenerate no_key (post (JObj [("brief", JStr "a")])))) =
  fst (run (always (upstream_failed "quota exceeded"))
         (handler no_number_truthy no_number_to_string v8_message Part001 (mkEnv (Some "sk-test")) (post (JObj [])))).
Proof.
  eapply (@response_depends_on_answer_only no_number no_number_truthy no_number_to_string v8_message
            ApiGenerate no_key (post (JObj [("brief", JStr "a")]))
            (always (upstream_failed "quota exceeded")) _
            Part001 (mkEnv (Some "sk-test")) (post (JObj []))
            (always (upstream_failed "quota exceeded")) _).
  - simpl. left. reflexivity.
  - simpl. left. reflexivity.
  - reflexivity.
Defined.

(** A body with a key the handler does not read. *)
Lemma unknown_keys_ignored_witness :
  handler no_number_truthy no_number_to_string v8_message Part001 no_key
    (post (JObj [("temperature", JStr "0"); ("brief", JStr "checkout flow")])) =
  handler no_number_truthy no_number_to_string v8_message Part001 no_key (post (JObj [("brief", JStr "checkout flow")])).
Proof.
  apply (@unknown_keys_ignored no_number no_number_truthy no_number_to_string v8_message Part001 no_key "POST"
           [("temperature", JStr "0"); ("brief", JStr "checkout flow")]
           "temperature").
  simpl. intros H.
  repeat (destruct H as [H | H]; [discriminate H |]). exact H.
Defined.

(** A body that is an empty array. *)
Lemma non_object_body_as_empty_object_witness :
  handler no_number_truthy no_number_to_string v8_message Part001 no_key (post (JArr [])) =
  handler no_number_truthy no_number_to_string v8_message Part001 no_key (post (JObj [])).
Proof.
  apply (@non_object_body_as_empty_object no_number no_number_truthy no_number_to_string v8_message Part001 no_key "POST"
           (JArr [])).
  - discriminate.
  - reflexivity.
Defined.

(** A body whose brief is null. *)
Lemma falsy_value_as_absent_witness :
  handler no_number_truthy no_number_to_string v8_message Part001 no_key (post (JObj [("brief", JNull)])) =
  handler no_number_truthy no_number_to_string v8_message Part001 no_key (post (JObj [])).
Proof.
  apply (@falsy_value_as_absent no_number no_number_truthy no_number_to_string v8_message Part001 no_key "POST"
           [("brief", JNull)] "brief" JNull).
  - simpl. right. left. reflexivity.
  - reflexivity.
  - reflexivity.
Defined.

(** A body with the four text inputs. *)
Lemma string_inputs_verbatim_witness :
  exists c,
    snd (run (always (upstream_ok "{}" (JObj [])))
           (handler no_number_truthy no_number_to_string v8_message Part001 no_key
              (post (JObj [("figmaUrl", JStr "https://figma.com/file/1");
                           ("brief", JStr "checkout flow");
                           ("detail", JStr "high");
                           ("rules", JStr "must: login")])))) = [c] /\
    sent_user_text c = Some (JStr (lines [
      "FIGMA: https://figma.com/file/1";
      "BRIEF: checkout flow";
      "DETAIL: high";
      "RULES (YAML or text):";
      "must: login";
      "";
      "Please infer intents from UI labels and flows if present. Produce comprehensive but concise artifacts.";
      "Link stories/tests/model via trace where obvious."
    ])).
Proof.
  eexists. split; [reflexivity |].
  eapply (@string_inputs_verbatim no_number no_number_truthy no_number_to_string v8_message Part001 no_key
            (post (JObj [("figmaUrl", JStr "https://figma.com/file/1");
                         ("brief", JStr "checkout flow");
                         ("detail", JStr "high");
                         ("rules", JStr "must: login")]))
            (always (upstream_ok "{}" (JObj []))) _
            (JObj [("figmaUrl", JStr "https://figma.com/file/1");
                   ("brief", JStr "checkout flow");
                   ("detail", JStr "high");
                   ("rules", JStr "must: login")])
            "https://figma.com/file/1" "checkout flow" "high" "must: login").
  - simpl. left. reflexivity.
  - reflexivity.
  - reflexivity.
  - discriminate.
  - reflexivity.
  - discriminate.
  - reflexivity.
  - discriminate.
  - reflexivity.
Defined.

(** A body whose Figma URL is an object with a toString member. *)
Lemma unconvertible_input_makes_no_call_witness :
  run (always (upstream_ok "{}" (JObj [])))
    (handler no_number_truthy no_number_to_string v8_message Part001 no_key
       (post (JObj [("figmaUrl", JObj [("toString", JStr "x")])]))) =
  (Ok (mkResponse "Server error: Cannot convert object to primitive value"
         500 []), []).
Proof.
  apply (@unconvertible_input_makes_no_call no_number no_number_truthy no_number_to_string v8_message Part001 no_key
           (post (JObj [("figmaUrl", JObj [("toString", JStr "x")])]))
           (always (upstream_ok "{}" (JObj [])))
           "figmaUrl"
           (JObj [("figmaUrl", JObj [("toString", JStr "x")])])
           [("toString", JStr "x")] (JStr "x")).
  - reflexivity.
  - reflexivity.
  - simpl. left. reflexivity.
  - reflexivity.
  - reflexivity.
Defined.

(** An answer with two choices. *)
Lemma first_choice_decides_witness :
  fst (run (always (upstream_ok "..."
                      (JObj [("choices", JArr [
                         JObj [("message", JObj [("content", JStr "[1]")])];
                         JObj [("message", JObj [("content", JStr "[2]")])]])])))
         (handler no_number_truthy no_number_to_string v8_message Part001 no_key (post (JObj [])))) =
  Ok (mkResponse "[1]" 200 [("Content-Type", "application/json")]).
Proof.
  eapply (@first_choice_decides no_number no_number_truthy no_number_to_string v8_message Part001 no_key (post (JObj []))
            (always (upstream_ok "..."
                       (JObj [("choices", JArr [
                          JObj [("message", JObj [("content", JStr "[1]")])];
                          JObj [("message", JObj [("content", JStr "[2]")])]])])))
            _ _ _
            (JObj [("message", JObj [("content", JStr "[1]")])])
            [JObj [("message", JObj [("content", JStr "[2]")])]]).
  - simpl. left. reflexivity.
  - reflexivity.
  - reflexivity.
  - reflexivity.
  - reflexivity.
Defined.

(** An answer that is an object without choices. *)
Lemma no_choice_gives_empty_object_witness :
  fst (run (always (upstream_ok "{}" (JObj [])))
         (handler no_number_truthy no_number_to_string v8_message Part001 no_key (post (JObj [])))) =
  Ok (mkResponse "{}" 200 [("Content-Type", "application/json")]).
Proof.
  eapply (@no_choice_gives_empty_object no_number no_number_truthy no_number_to_string v8_message Part001 no_key
            (post (JObj []))
            (always (upstream_ok "{}" (JObj []))) _
            (upstream_ok "{}" (JObj [])) (JObj [])).
  - simpl. left. reflexivity.
  - reflexivity.
  - reflexivity.
  - reflexivity.
  - discriminate.
  - left. reflexivity.
Defined.

(** An answer whose content is an object with a toString member. *)
Lemma object_content_not_serialised_witness :
  fst (run (always (upstream_ok "..."
                      (JObj [("choices", JArr [
                         JObj [("message",
                                JObj [("content",
                                       JObj [("toString", JStr "x")])])]])])))
         (handler no_number_truthy no_number_to_string v8_message Part001 no_key (post (JObj [])))) =
  Ok (mkResponse "Server error: Cannot convert object to primitive value"
        500 []).
Proof.
  assert (Hin : In (outbound_call no_number_truthy Part001 no_key default_user_text
                      (fields_of (JObj [])))
                   (snd (run (always (upstream_ok "..."
                      (JObj [("choices", JArr [
                         JObj [("message",
                                JObj [("content",
                                       JObj [("toString", JStr "x")])])]])])))
                           (handler no_number_truthy no_number_to_string v8_message Part001 no_key (post (JObj []))))))
    by (simpl; left; reflexivity).
  destruct (@object_content_not_serialised no_number no_number_truthy no_number_to_string v8_message Part001 no_key
              (post (JObj [])) _ _ _ _ [("toString", JStr "x")]
              Hin eq_refl eq_refl eq_refl eq_refl) as [_ H].
  exact (H (JStr "x") eq_refl).
Defined.
